(** * CryptoBot: signal engine and trade-outcome state machine

    A shallow embedding of [main.py]: the pivot calculator
    ([calculate_cpr_levels]), the indicator columns added by
    [fetch_data_safe], the signal rule and trade creation of
    [generate_and_send_signal] and [record_trade], the monitoring pass
    [check_trades], the 24h summary of [daily_report] and the win-rate
    of the status page [home].

    Conventions of the embedding.
    - Prices, levels and percentages are Python floats in the source;
      here they are exact rationals ([Q]).  Rounding, infinities and NaN
      are not represented.  Equalities that hold up to the value of a
      fraction are stated with [==].
    - The two moving averages are pandas' [rolling(n).mean()], computed
      by pandas in double arithmetic.  They are not recomputed: the
      column is a parameter, [rolling], of everything that reads a
      frame, and only the rows on which it is defined are modelled.
    - A Python exception is an explicit result: [None] for a pure
      expression ([py_div]), [Raise] in the monad [Eff] used for the
      bodies of [try] blocks, where the mutations done before the
      exception stay in the state.
    - The exchange, the Telegram bot and the clock are inputs: a frame
      (or its absence) per fetch, a flag per notification that tells if
      the send returns or raises, and the instant [now].
    - A trade dictionary is the record [Trade]; the ledger
      [trade_history] is a list of them in insertion order. *)

From Stdlib Require Import String Ascii QArith Qminmax Lqa ZArith List Bool Lia.
Import ListNotations.

Local Open Scope Q_scope.

(** ** Python numbers and sequences *)

(** [x < y] and [x <= y] on floats; [x > y] is [py_ltb y x] and
    [x >= y] is [py_leb y x]. *)
Definition py_ltb (x y : Q) : bool :=
  match x ?= y with Lt => true | _ => false end.

Definition py_leb (x y : Q) : bool := Qle_bool x y.

Notation "x <? y" := (py_ltb x y) : Q_scope.
Notation "x <=? y" := (py_leb x y) : Q_scope.
Notation "x >? y" := (py_ltb y x) : Q_scope.
Notation "x >=? y" := (py_leb y x) : Q_scope.

(** True division [x / y]: [ZeroDivisionError] ([None]) on a zero divisor. *)
Definition py_div (x y : Q) : option Q :=
  if Qeq_bool y 0 then None else Some (x / y).

(** [min(a, b)]: the first argument unless the second is strictly smaller. *)
Definition py_min (a b : Q) : Q := if b <? a then b else a.

(** [max(a, b)]: the first argument unless the second is strictly greater. *)
Definition py_max (a b : Q) : Q := if b >? a then b else a.

(** [sum(xs)]: left to right, starting from the integer zero. *)
Definition py_sum (xs : list Q) : Q := fold_left Qplus xs 0.

(** [len(xs)] as a Python integer. *)
Definition py_len {A : Type} (xs : list A) : Z := Z.of_nat (length xs).

(** [df.iloc[i]] and [xs[i]]: a negative index counts from the end;
    [None] is [IndexError]. *)
Definition py_iloc {A : Type} (df : list A) (i : Z) : option A :=
  let k := if (i <? 0)%Z then (py_len df + i)%Z else i in
  if (k <? 0)%Z then None else nth_error df (Z.to_nat k).

(** [df.empty], and [not xs] on a list. *)
Definition py_empty {A : Type} (df : list A) : bool :=
  match df with [] => true | _ :: _ => false end.

(** [needle in haystack] on strings. *)
Fixpoint py_contains (needle haystack : string) : bool :=
  if String.prefix needle haystack then true
  else match haystack with
       | EmptyString => false
       | String _ rest => py_contains needle rest
       end.

(** ** Exceptions and mutable state

    The body of a [try] block is a computation over a state [S] that
    either returns or raises; what it wrote before raising stays. *)

Inductive Res (A : Type) : Type :=
| Return (a : A)
| Raise.
Arguments Return {A} a.
Arguments Raise {A}.

Definition Eff (S A : Type) : Type := S -> Res A * S.

Definition ret {S A : Type} (a : A) : Eff S A := fun s => (Return a, s).

Definition bind {S A B : Type} (c : Eff S A) (k : A -> Eff S B) : Eff S B :=
  fun s => match c s with
           | (Return a, s') => k a s'
           | (Raise, s') => (Raise, s')
           end.

Definition raise {S A : Type} : Eff S A := fun s => (Raise, s).

Definition get {S : Type} : Eff S S := fun s => (Return s, s).

Definition modify {S : Type} (f : S -> S) : Eff S unit :=
  fun s => (Return tt, f s).

(** A value that must be there: [None] is the exception of the lookup
    or of the division that produced it. *)
Definition of_option {S A : Type} (o : option A) : Eff S A :=
  match o with Some a => ret a | None => raise end.

(** [try: body  except Exception as e: print(...)] *)
Definition try_except {S : Type} (body : Eff S unit) : Eff S unit :=
  fun s => (Return tt, snd (body s)).

(** The state a computation leaves behind. *)
Definition exec {S A : Type} (c : Eff S A) (s : S) : S := snd (c s).

Declare Scope eff_scope.
Delimit Scope eff_scope with eff.
Notation "x <- c ;; k" := (bind c (fun x => k))
  (at level 61, c at next level, right associativity) : eff_scope.
Notation "c ;; k" := (bind c (fun _ => k))
  (at level 61, right associativity) : eff_scope.

(** ** Candles, frames and pivot levels *)

(** One row of an OHLCV frame, columns as named by the source. *)
Record Candle : Type := mkCandle {
  c_timestamp : Z;
  c_open : Q;
  c_high : Q;
  c_low : Q;
  c_close : Q;
  c_volume : Q
}.

(** The dictionary returned by [calculate_cpr_levels]. *)
Record CPR : Type := mkCPR {
  PP : Q; TC : Q; BC : Q;
  R1 : Q; S1 : Q;
  R2 : Q; S2 : Q
}.

(** [calculate_cpr_levels(df_daily)].  [None] is the Python [None] of
    the guard; it also stands for the [IndexError] of [iloc[-2]], which
    the guard makes unreachable ([iloc_neg2_defined]). *)
Definition calculate_cpr_levels (df_daily : list Candle) : option CPR :=
  if py_empty df_daily || (py_len df_daily <? 2)%Z then None
  else
    match py_iloc df_daily (-2) with
    | None => None
    | Some prev_day =>
        let H := c_high prev_day in
        let L := c_low prev_day in
        let C := c_close prev_day in
        let PP := (H + L + C) / 3 in
        let BC := (H + L) / 2 in
        let TC := PP - BC + PP in
        Some {| PP := PP; TC := TC; BC := BC;
                R1 := 2 * PP - L; S1 := 2 * PP - H;
                R2 := PP + (H - L); S2 := PP - (H - L) |}
    end.

(** pandas' [Series.rolling(n).mean()]: the value it gives at row [i]
    of a column, on the rows where it is defined.  pandas computes it
    in double arithmetic with a running sum; the value is taken from
    pandas as it comes and is not recomputed here. *)
Definition Rolling : Type := nat -> list Q -> nat -> Q.

(** The mean of the window in exact arithmetic: the column pandas would
    give without rounding.  It serves to run the statements on sample
    frames. *)
Definition exact_mean : Rolling :=
  fun n closes i =>
    py_sum (firstn n (skipn (S i - n) closes)) / inject_Z (Z.of_nat n).

Section Pandas.

Variable rolling : Rolling.

(** Row [i] of [closes.rolling(n).mean()]: pandas' mean of the [n]
    closes that end at row [i], NaN ([None]) while fewer than [n] are
    there. *)
Definition rolling_mean (n : nat) (closes : list Q) (i : nat) : option Q :=
  if (n <=? S i)%nat then Some (rolling n closes i) else None.

(** A row of the frame [fetch_data_safe] returns: the candle and the two
    averages, all defined. *)
Record Bar : Type := mkBar {
  b_candle : Candle;
  b_sma9 : Q;
  b_sma20 : Q
}.

Definition b_close (row : Bar) : Q := c_close (b_candle row).

(** [df['sma9'] = ...; df['sma20'] = ...; df.dropna()] from row [i] on:
    a row stays when both averages are defined. *)
Fixpoint indicator_rows (closes : list Q) (i : nat) (ohlcv : list Candle)
  : list Bar :=
  match ohlcv with
  | [] => []
  | c :: rest =>
      match rolling_mean 9 closes i, rolling_mean 20 closes i with
      | Some sma9, Some sma20 =>
          mkBar c sma9 sma20 :: indicator_rows closes (S i) rest
      | _, _ => indicator_rows closes (S i) rest
      end
  end.

Definition with_indicators (ohlcv : list Candle) : list Bar :=
  indicator_rows (map c_close ohlcv) 0 ohlcv.

(** The exchange as the bot sees it: the answer to
    [fetch_ohlcv(symbol, timeframe)] at a given attempt, [None] when
    the call (or [load_markets], or [market]) raises. *)
Definition Exchange : Type := string -> string -> nat -> option (list Candle).

Definition max_retries : nat := 3.

(** The [for attempt in range(max_retries)] loop of [fetch_data_safe]:
    the first answer wins, a raising attempt is followed by the next
    one (after [time.sleep(2)], which changes nothing here), and the
    empty frame is returned when all have raised. *)
Fixpoint fetch_attempts (exchange : Exchange) (symbol timeframe : string)
  (attempt remaining : nat) : list Bar :=
  match remaining with
  | O => []
  | S k =>
      match exchange symbol timeframe attempt with
      | Some ohlcv => with_indicators ohlcv
      | None => fetch_attempts exchange symbol timeframe (S attempt) k
      end
  end.

Definition fetch_data_safe (exchange : Exchange) (symbol timeframe : string)
  : list Bar :=
  fetch_attempts exchange symbol timeframe 0 max_retries.

Definition TIMEFRAME_MAIN : string := "4h".
Definition TIMEFRAME_ENTRY : string := "1h".

(** ** Trades, messages and the process state *)

(** A trade dictionary; [timestamp] is the instant the ISO string
    denotes, in microseconds. *)
Record Trade : Type := mkTrade {
  id : Z;
  symbol : string;
  signal : string;
  entry : Q;
  tp1 : Q;
  tp2 : Q;
  sl : Q;
  timestamp : Z;
  status : string;
  outcome : option string;
  pnl_percent : Q
}.

Definition set_status (v : string) (t : Trade) : Trade :=
  mkTrade (id t) (symbol t) (signal t) (entry t) (tp1 t) (tp2 t) (sl t)
          (timestamp t) v (outcome t) (pnl_percent t).

Definition set_outcome (v : option string) (t : Trade) : Trade :=
  mkTrade (id t) (symbol t) (signal t) (entry t) (tp1 t) (tp2 t) (sl t)
          (timestamp t) (status t) v (pnl_percent t).

Definition set_pnl_percent (v : Q) (t : Trade) : Trade :=
  mkTrade (id t) (symbol t) (signal t) (entry t) (tp1 t) (tp2 t) (sl t)
          (timestamp t) (status t) (outcome t) v.

(** The 24h summary: the values interpolated into the report text. *)
Inductive Report : Type :=
| NoTrades
| Summary (signals wins losses : Z) (net_pct : Q).

(** What is handed to [bot.send_message]: the values interpolated into
    the text, not the formatted text. *)
Inductive Message : Type :=
| UpdateMsg (symbol new_status : string) (outcome : option string)
| SignalMsg (symbol : string) (price : Q) (signal trend_4h trend_1h : string)
            (above_pp : bool) (tp1 tp2 sl : Q)
| ReportMsg (r : Report).

Record BotStats : Type := mkStats {
  bot_status : string;
  total_analyses : Z;
  last_analysis : option Z
}.

(** The globals and the outside world they reach: the ledger, the
    counters, the messages delivered so far and the snapshots
    [save_history] was called on so far, in order. *)
Record Sys : Type := mkSys {
  trade_history : list Trade;
  bot_stats : BotStats;
  sent : list Message;
  writes : list (list Trade)
}.

(** [save_history()]: the ledger is handed to [json.dump] for
    [TRADE_FILE].  A write that fails is printed and swallowed (lines
    67-68), so the call never raises and changes nothing in the
    program; what the file holds after a failed write is not
    represented. *)
Definition save_history : Eff Sys unit :=
  modify (fun s => mkSys (trade_history s) (bot_stats s) (sent s)
                         (writes s ++ [trade_history s])).

(** [asyncio.run(bot.send_message(...))]: delivered, or it raises. *)
Definition bot_send_message (ok : bool) (msg : Message) : Eff Sys unit :=
  if ok
  then modify (fun s => mkSys (trade_history s) (bot_stats s)
                              (sent s ++ [msg]) (writes s))
  else raise.

(** [record_trade(symbol, signal, entry, tp1, tp2, sl)] at instant [now]. *)
Definition record_trade (now : Z) (symbol signal : string)
  (entry tp1 tp2 sl : Q) : Eff Sys unit :=
  try_except (
    s <- get ;;
    let t := {| id := py_len (trade_history s) + 1;
                symbol := symbol;
                signal := signal;
                entry := entry;
                tp1 := tp1;
                tp2 := tp2;
                sl := sl;
                timestamp := now;
                status := "ACTIVE";
                outcome := None;
                pnl_percent := 0 |} in
    modify (fun s => mkSys (trade_history s ++ [t]) (bot_stats s)
                           (sent s) (writes s)) ;;
    save_history)%eff.

(** ** Signal generation *)

(** Lines 232-233: the trend of a frame at its latest row. *)
Definition trend_of (row : Bar) : string :=
  if b_sma9 row >? b_sma20 row then "BULLISH" else "BEARISH".

(** Lines 236-244, "Master Signal Logic". *)
Definition master_signal (trend_4h trend_1h : string) (price pp : Q) : string :=
  if (trend_4h =? "BULLISH")%string && (trend_1h =? "BULLISH")%string
     && (price >? pp)
  then "STRONG BUY"
  else if (trend_4h =? "BEARISH")%string && (trend_1h =? "BEARISH")%string
          && (price <? pp)
  then "STRONG SELL"
  else "WAIT (Neutral)".

Definition is_none {A : Type} (o : option A) : bool :=
  match o with None => true | Some _ => false end.

(** [generate_and_send_signal(symbol)] at instant [now]; [send_ok]
    tells if the notification is delivered. *)
Definition generate_and_send_signal (exchange : Exchange) (send_ok : bool)
  (now : Z) (symbol : string) : Eff Sys unit :=
  try_except (
    let df_4h := fetch_data_safe exchange symbol TIMEFRAME_MAIN in
    let df_1h := fetch_data_safe exchange symbol TIMEFRAME_ENTRY in
    ohlcv_d <- of_option (exchange symbol "1d"%string 0%nat) ;;
    let cpr := calculate_cpr_levels ohlcv_d in
    if py_empty df_4h || py_empty df_1h || is_none cpr then ret tt
    else
      cpr <- of_option cpr ;;
      last_4h <- of_option (py_iloc df_4h (-1)) ;;
      last_1h <- of_option (py_iloc df_1h (-1)) ;;
      let price := b_close last_4h in
      let trend_4h := trend_of last_4h in
      let trend_1h := trend_of last_1h in
      let signal := master_signal trend_4h trend_1h price (PP cpr) in
      if negb (py_contains "BUY" signal) && negb (py_contains "SELL" signal)
      then ret tt
      else
        let is_buy := py_contains "BUY" signal in
        let tp1 := if is_buy then R1 cpr else S1 cpr in
        let tp2 := if is_buy then R2 cpr else S2 cpr in
        let sl := if is_buy then py_min (BC cpr) (TC cpr)
                  else py_max (BC cpr) (TC cpr) in
        record_trade now symbol signal price tp1 tp2 sl ;;
        bot_send_message send_ok
          (SignalMsg symbol price signal trend_4h trend_1h
                     (price >? PP cpr) tp1 tp2 sl) ;;
        modify (fun s =>
          mkSys (trade_history s)
                (mkStats "operational"
                         (total_analyses (bot_stats s) + 1) (Some now))
                (sent s) (writes s)))%eff.

(** ** Trade monitoring *)

(** The state of one iteration of the loop of [check_trades]: the
    dictionary the loop variable [trade] is bound to, the local
    [updated], and the globals. *)
Record Mon : Type := mkMon {
  trade : Trade;
  updated : bool;
  sys : Sys
}.

Definition in_sys {A : Type} (c : Eff Sys A) : Eff Mon A :=
  fun m => let (r, s) := c (sys m) in (r, mkMon (trade m) (updated m) s).

Definition set_trade (f : Trade -> Trade) : Eff Mon unit :=
  modify (fun m => mkMon (f (trade m)) (updated m) (sys m)).

Definition set_updated : Eff Mon unit :=
  modify (fun m => mkMon (trade m) true (sys m)).

(** Lines 148-163: the threshold ladder; it stores the outcome and
    yields [new_status]. *)
Definition win_loss_logic (is_buy : bool) (current_price : Q) (t : Trade)
  : Eff Mon (option string) :=
  (if is_buy then
     if current_price >=? tp2 t then
       set_trade (set_outcome (Some "WIN"%string)) ;; ret (Some "TP2_HIT"%string)
     else if current_price >=? tp1 t then
       set_trade (set_outcome (Some "WIN"%string)) ;; ret (Some "TP1_HIT"%string)
     else if current_price <=? sl t then
       set_trade (set_outcome (Some "LOSS"%string)) ;; ret (Some "SL_HIT"%string)
     else ret None
   else
     if current_price <=? tp2 t then
       set_trade (set_outcome (Some "WIN"%string)) ;; ret (Some "TP2_HIT"%string)
     else if current_price <=? tp1 t then
       set_trade (set_outcome (Some "WIN"%string)) ;; ret (Some "TP1_HIT"%string)
     else if current_price >=? sl t then
       set_trade (set_outcome (Some "LOSS"%string)) ;; ret (Some "SL_HIT"%string)
     else ret None)%eff.

(** The same ladder read as a table: the status and the outcome of the
    first threshold crossed, if any ([run_check_one] relates the two). *)
Definition crossed (is_buy : bool) (current_price : Q) (t : Trade)
  : option (string * string) :=
  if is_buy then
    if current_price >=? tp2 t then Some ("TP2_HIT", "WIN")%string
    else if current_price >=? tp1 t then Some ("TP1_HIT", "WIN")%string
    else if current_price <=? sl t then Some ("SL_HIT", "LOSS")%string
    else None
  else
    if current_price <=? tp2 t then Some ("TP2_HIT", "WIN")%string
    else if current_price <=? tp1 t then Some ("TP1_HIT", "WIN")%string
    else if current_price >=? sl t then Some ("SL_HIT", "LOSS")%string
    else None.

(** Lines 139-176: the body of the [try] for one ACTIVE trade.  An empty
    frame is the [continue]; [time.sleep(1)] changes nothing here. *)
Definition check_body (exchange : Exchange) (send_ok : bool) : Eff Mon unit :=
  (m <- get ;;
   let df := fetch_data_safe exchange (symbol (trade m)) TIMEFRAME_ENTRY in
   if py_empty df then ret tt
   else
     last <- of_option (py_iloc df (-1)) ;;
     let current_price := b_close last in
     let is_buy := py_contains "BUY" (signal (trade m)) in
     new_status <- win_loss_logic is_buy current_price (trade m) ;;
     match new_status with
     | Some new_status =>
         set_trade (set_status new_status) ;;
         q <- of_option (py_div (current_price - entry (trade m))
                                (entry (trade m))) ;;
         let diff := q * 100 in
         let diff := if negb is_buy then - diff else diff in
         set_trade (set_pnl_percent diff) ;;
         m' <- get ;;
         in_sys (bot_send_message send_ok
                   (UpdateMsg (symbol (trade m')) new_status
                              (outcome (trade m')))) ;;
         set_updated
     | None => ret tt
     end)%eff.

(** One iteration of [for trade in trade_history]. *)
Definition check_one (exchange : Exchange) (send_ok : bool) (m : Mon) : Mon :=
  if (status (trade m) =? "ACTIVE")%string
  then exec (try_except (check_body exchange send_ok)) m
  else m.

(** The loop from position [i] on; [market i] is the exchange at the
    time the trade at position [i] is checked and [telegram i] tells if
    its notification is delivered. *)
Fixpoint check_loop (market : nat -> Exchange) (telegram : nat -> bool)
  (i : nat) (trades : list Trade) (upd : bool) (s : Sys)
  : list Trade * bool * Sys :=
  match trades with
  | [] => ([], upd, s)
  | t :: rest =>
      let m := check_one (market i) (telegram i) (mkMon t upd s) in
      let '(rest', upd', s') :=
        check_loop market telegram (S i) rest (updated m) (sys m) in
      (trade m :: rest', upd', s')
  end.

(** [check_trades()] *)
Definition check_trades (market : nat -> Exchange) (telegram : nat -> bool)
  : Eff Sys unit :=
  (s <- get ;;
   let '(trades, upd, s') :=
     check_loop market telegram 0 (trade_history s) false s in
   modify (fun _ => mkSys trades (bot_stats s') (sent s') (writes s')) ;;
   if upd then save_history else ret tt)%eff.

(** A trade at position [i] left ACTIVE during the pass. *)
Definition transitioned (before after : list Trade) (i : nat) : Prop :=
  exists t t', nth_error before i = Some t /\ nth_error after i = Some t' /\
               status t = "ACTIVE"%string /\ status t' <> "ACTIVE"%string.

(** ** Daily report and status page *)

(** [timedelta(hours=24)] in microseconds. *)
Definition hours_24 : Z := 24 * 3600 * 1000000.

Definition has_outcome (o : string) (t : Trade) : bool :=
  match outcome t with
  | Some o' => (o' =? o)%string
  | None => false
  end.

(** Lines 188-205: the summary over the ledger at instant [now]. *)
Definition report_of (now : Z) (history : list Trade) : Report :=
  let last_24h := (now - hours_24)%Z in
  let recent := filter (fun t => (timestamp t >=? last_24h)%Z) history in
  if py_empty recent then NoTrades
  else
    let wins := py_len (filter (has_outcome "WIN") recent) in
    let losses := py_len (filter (has_outcome "LOSS") recent) in
    let net_pct := py_sum (map pnl_percent recent) in
    Summary (py_len recent) wins losses net_pct.

(** [daily_report()]; [now] is the instant read after the monitoring
    pass and [report_ok] tells if the report is delivered. *)
Definition daily_report (market : nat -> Exchange) (telegram : nat -> bool)
  (report_ok : bool) (now : Z) : Eff Sys unit :=
  try_except (
    check_trades market telegram ;;
    s <- get ;;
    bot_send_message report_ok (ReportMsg (report_of now (trade_history s))))%eff.

(** Lines 319-322 of [home()]: total, wins, losses and the win rate
    [wr] before it is rounded for display; [None] would be the
    [ZeroDivisionError]. *)
Definition home (s : Sys) : option (Z * Z * Z * Q) :=
  let total := py_len (trade_history s) in
  let wins := py_len (filter (has_outcome "WIN") (trade_history s)) in
  let losses := py_len (filter (has_outcome "LOSS") (trade_history s)) in
  if (wins + losses >? 0)%Z then
    match py_div (inject_Z wins) (inject_Z (wins + losses)) with
    | Some q => Some (total, wins, losses, q * 100)
    | None => None
    end
  else Some (total, wins, losses, 0).

(** ** Sample inputs

    Frames and ledgers on which the statements below are run. *)

(** Twenty candles closing at [p]: the shortest series with a defined
    20-bar average. *)
Definition flat_series (p : Q) : list Candle :=
  repeat (mkCandle 0 p p p p 1) 20.

(** An exchange that answers every request with [flat_series p]. *)
Definition flat_market (p : Q) : Exchange := fun _ _ _ => Some (flat_series p).

(** The last row of the frame [fetch_data_safe] builds on [flat_market p]. *)
Definition flat_bar (p : Q) : Bar :=
  mkBar (mkCandle 0 p p p p 1) (py_sum (repeat p 9) / 9) (py_sum (repeat p 20) / 20).

Definition buy_trade : Trade :=
  mkTrade 1 "BTC/USDT" "STRONG BUY" 100 110 120 95 0 "ACTIVE" None 0.

Definition sell_trade : Trade :=
  mkTrade 2 "ETH/USDT" "STRONG SELL" 100 90 80 105 0 "ACTIVE" None 0.

Definition closed_trade : Trade :=
  mkTrade 3 "SOL/USDT" "STRONG BUY" 100 110 120 95 0 "TP1_HIT" (Some "WIN"%string) 12.

Definition fresh_stats : BotStats := mkStats "initializing" 0 None.

Definition sys_of (history : list Trade) : Sys := mkSys history fresh_stats [] [].

(** Twenty candles closing at 86, 87, ..., 105. *)
Definition rising_series : list Candle :=
  map (fun k => let p := inject_Z (86 + Z.of_nat k) in mkCandle 0 p p p p 1)
      (seq 0 20).

(** The last row of the frame built on [rising_series]. *)
Definition rising_bar : Bar :=
  mkBar (mkCandle 0 105 105 105 105 1) (909 # 9) (1910 # 20).

(** A closed day with H = 110, L = 90, C = 100, then the current day. *)
Definition daily_series : list Candle :=
  [mkCandle 0 95 110 90 100 1; mkCandle 1 100 106 99 105 1].

(** The levels [calculate_cpr_levels] computes on [daily_series]. *)
Definition daily_levels : CPR :=
  let PP := (110 + 90 + 100) / 3 in
  let BC := (110 + 90) / 2 in
  mkCPR PP (PP - BC + PP) BC (2 * PP - 90) (2 * PP - 110)
        (PP + (110 - 90)) (PP - (110 - 90)).

(** An exchange with a rising market on the intraday timeframes. *)
Definition rising_market : Exchange :=
  fun _ timeframe _ =>
    if (timeframe =? "1d")%string then Some daily_series
    else Some rising_series.

(** An exchange with a flat market at 105 above the same closed day. *)
Definition quiet_market : Exchange :=
  fun _ timeframe _ =>
    if (timeframe =? "1d")%string then Some daily_series
    else Some (flat_series 105).

(** ** Ledger invariants and repeated passes *)

(** The trade at position [i] carries the id [i + 1], as [record_trade]
    numbers them. *)
Definition sequential_ids (history : list Trade) : Prop :=
  forall (i : nat) (t : Trade),
    nth_error history i = Some t -> id t = (Z.of_nat i + 1)%Z.

(** Status and outcome tell the same story. *)
Definition coherent (t : Trade) : Prop :=
  (status t = "ACTIVE" /\ outcome t = None)%string \/
  ((status t = "TP1_HIT" \/ status t = "TP2_HIT") /\
   outcome t = Some "WIN")%string \/
  (status t = "SL_HIT" /\ outcome t = Some "LOSS")%string.

(** The scheduler's successive calls of [check_trades], each with the
    exchange and the Telegram bot of its time. *)
Definition run_passes (worlds : list ((nat -> Exchange) * (nat -> bool)))
  (s : Sys) : Sys :=
  fold_left (fun s w => exec (check_trades (fst w) (snd w)) s) worlds s.

(** An exchange that cannot be reached: every call raises. *)
Definition down_market : Exchange := fun _ _ _ => None.

(** An exchange that raises twice, then answers with [flat_series p]. *)
Definition flaky_market (p : Q) : Exchange :=
  fun _ _ attempt => if (attempt <? 2)%nat then None else Some (flat_series p).

(** * Properties *)

(** ** Facts about the Python helpers *)

Lemma ltb_lt (x y : Q) : (x <? y) = true <-> x < y.
Proof.
  unfold py_ltb. rewrite Qlt_alt.
  destruct (x ?= y); split; congruence.
Qed.

Lemma ltb_ge (x y : Q) : (x <? y) = false <-> y <= x.
Proof.
  rewrite <- Bool.not_true_iff_false, ltb_lt. split.
  - apply Qnot_lt_le.
  - apply Qle_not_lt.
Qed.

Lemma leb_le (x y : Q) : (x <=? y) = true <-> x <= y.
Proof. apply Qle_bool_iff. Qed.

Lemma leb_gt (x y : Q) : (x <=? y) = false <-> y < x.
Proof.
  rewrite <- Bool.not_true_iff_false, leb_le. split.
  - apply Qnot_le_lt.
  - apply Qlt_not_le.
Qed.

Lemma py_min_Qmin (a b : Q) : py_min a b == Qmin a b.
Proof.
  unfold py_min. destruct (b <? a) eqn:E.
  - apply ltb_lt in E. symmetry. apply Q.min_r. apply Qlt_le_weak, E.
  - apply ltb_ge in E. symmetry. apply Q.min_l, E.
Qed.

Lemma py_max_Qmax (a b : Q) : py_max a b == Qmax a b.
Proof.
  unfold py_max. destruct (b >? a) eqn:E.
  - apply ltb_lt in E. symmetry. apply Q.max_r. apply Qlt_le_weak, E.
  - apply ltb_ge in E. symmetry. apply Q.max_l, E.
Qed.

Lemma py_div_some (x y : Q) : ~ y == 0 -> py_div x y = Some (x / y).
Proof.
  intros Hy. unfold py_div.
  destruct (Qeq_bool y 0) eqn:E; [|reflexivity].
  apply Qeq_bool_iff in E. contradiction.
Qed.

Lemma py_div_none (x y : Q) : y == 0 -> py_div x y = None.
Proof.
  intros Hy. unfold py_div.
  apply Qeq_bool_iff in Hy. rewrite Hy. reflexivity.
Qed.

Lemma iloc_last_app {A : Type} (front : list A) (x : A) :
  py_iloc (front ++ [x]) (-1) = Some x.
Proof.
  unfold py_iloc, py_len. cbn [Z.ltb Z.compare].
  rewrite length_app. cbn [length].
  replace (Z.of_nat (length front + 1) + -1)%Z
    with (Z.of_nat (length front)) by lia.
  destruct (Z.ltb_spec (Z.of_nat (length front)) 0); [lia|].
  rewrite Nat2Z.id, nth_error_app2, Nat.sub_diag by lia. reflexivity.
Qed.

Lemma iloc_neg2_app {A : Type} (front : list A) (x y : A) :
  py_iloc (front ++ [x; y]) (-2) = Some x.
Proof.
  unfold py_iloc, py_len. cbn [Z.ltb Z.compare].
  rewrite length_app. cbn [length].
  replace (Z.of_nat (length front + 2) + -2)%Z
    with (Z.of_nat (length front)) by lia.
  destruct (Z.ltb_spec (Z.of_nat (length front)) 0); [lia|].
  rewrite Nat2Z.id, nth_error_app2, Nat.sub_diag by lia. reflexivity.
Qed.

(** A frame of two rows or more ends in a closed day and the current day. *)
Lemma two_last_rows {A : Type} (df : list A) :
  (2 <= length df)%nat -> exists front x y, df = front ++ [x; y].
Proof.
  intros Hlen.
  destruct (rev df) as [|y [|x r]] eqn:E.
  - apply (f_equal (@length A)) in E. rewrite length_rev in E. cbn in E. lia.
  - apply (f_equal (@length A)) in E. rewrite length_rev in E. cbn in E. lia.
  - exists (rev r), x, y.
    rewrite <- (rev_involutive df), E. cbn [rev].
    rewrite <- app_assoc. reflexivity.
Qed.

Lemma last_row {A : Type} (df : list A) :
  df <> [] -> exists front x, df = front ++ [x].
Proof.
  intros Hne. destruct (exists_last Hne) as (front & x & ->).
  exists front, x. reflexivity.
Qed.

Lemma iloc_neg2_defined {A : Type} (df : list A) :
  (2 <= length df)%nat -> exists x, py_iloc df (-2) = Some x.
Proof.
  intros Hlen. destruct (two_last_rows df Hlen) as (front & x & y & ->).
  exists x. apply iloc_neg2_app.
Qed.

Lemma iloc_last_nonempty {A : Type} (df : list A) (x : A) :
  py_iloc df (-1) = Some x -> py_empty df = false.
Proof. destruct df; [discriminate | reflexivity]. Qed.

(** ** Pivot calculator *)

(** C5. On a daily frame of at least two candles the levels are those of
    the second-to-last candle: PP = (H+L+C)/3, BC = (H+L)/2,
    TC = PP + (PP - BC), R1 = 2 PP - L, S1 = 2 PP - H, R2 = PP + (H - L),
    S2 = PP - (H - L); on a frame of fewer than two candles the result
    is [None], no record of levels at all. *)
Theorem calculate_cpr_levels_spec :
  (forall df : list Candle,
      (length df < 2)%nat -> calculate_cpr_levels df = None) /\
  (forall df : list Candle,
      (2 <= length df)%nat ->
      exists prev_day lv,
        nth_error df (length df - 2) = Some prev_day /\
        calculate_cpr_levels df = Some lv /\
        let H := c_high prev_day in
        let L := c_low prev_day in
        let C := c_close prev_day in
        PP lv == (H + L + C) / 3 /\
        BC lv == (H + L) / 2 /\
        TC lv == PP lv + (PP lv - BC lv) /\
        R1 lv == 2 * PP lv - L /\
        S1 lv == 2 * PP lv - H /\
        R2 lv == PP lv + (H - L) /\
        S2 lv == PP lv - (H - L)).
Proof.
  split.
  - intros df Hlen. unfold calculate_cpr_levels.
    destruct df as [|c [|d df]]; cbn in *; try reflexivity; lia.
  - intros df Hlen.
    destruct (two_last_rows df Hlen) as (front & prev & cur & ->).
    exists prev. eexists. split.
    { rewrite length_app. cbn [length].
      rewrite nth_error_app2 by lia.
      replace (length front + 2 - 2 - length front)%nat with 0%nat by lia.
      reflexivity. }
    split.
    { unfold calculate_cpr_levels. rewrite iloc_neg2_app.
      replace (py_empty (front ++ [prev; cur])) with false
        by (destruct front; reflexivity).
      replace (py_len (front ++ [prev; cur]) <? 2)%Z with false.
      - reflexivity.
      - symmetry. apply Z.ltb_ge. unfold py_len.
        rewrite length_app. cbn [length]. lia. }
    cbn. repeat split; try reflexivity. ring.
Qed.

(** ** One iteration of the monitoring loop *)

Ltac run_eff :=
  cbv beta iota zeta delta
    [check_one check_trades record_trade generate_and_send_signal daily_report
     exec try_except check_body win_loss_logic bind get ret modify
     set_trade set_updated in_sys bot_send_message of_option raise
     save_history snd fst trade updated sys].

Ltac to_order :=
  repeat match goal with
         | H : (_ <? _) = true |- _ => apply ltb_lt in H
         | H : (_ <? _) = false |- _ => apply ltb_ge in H
         | H : (_ <=? _) = true |- _ => apply leb_le in H
         | H : (_ <=? _) = false |- _ => apply leb_gt in H
         end.

Lemma iloc_last_empty {A : Type} (df : list A) :
  py_empty df = true -> py_iloc df (-1) = None.
Proof. destruct df; [reflexivity | discriminate]. Qed.

(** What one iteration does to an ACTIVE trade, case by case. *)
Lemma run_check_one (ex : Exchange) (ok : bool) (t : Trade) (u : bool) (s : Sys) :
  status t = "ACTIVE"%string ->
  check_one ex ok (mkMon t u s) =
  match py_iloc (fetch_data_safe ex (symbol t) TIMEFRAME_ENTRY) (-1) with
  | None => mkMon t u s
  | Some last =>
      let p := b_close last in
      let is_buy := py_contains "BUY" (signal t) in
      match crossed is_buy p t with
      | None => mkMon t u s
      | Some (st, oc) =>
          let t1 := set_status st (set_outcome (Some oc) t) in
          match py_div (p - entry t) (entry t) with
          | None => mkMon t1 u s
          | Some q =>
              let t2 := set_pnl_percent
                          (if negb is_buy then - (q * 100) else q * 100) t1 in
              if ok
              then mkMon t2 true
                     (mkSys (trade_history s) (bot_stats s)
                            (sent s ++ [UpdateMsg (symbol t) st (Some oc)])
                            (writes s))
              else mkMon t2 u s
          end
      end
  end.
Proof.
  intros Hact. run_eff. rewrite Hact. cbn [String.eqb Ascii.eqb Bool.eqb].
  destruct (py_empty _) eqn:Hemp.
  - rewrite (iloc_last_empty _ Hemp). reflexivity.
  - destruct (py_iloc _ _) as [last|]; [|reflexivity].
    unfold crossed.
    destruct (py_contains _ _);
      repeat match goal with
             | |- context [if ?c then _ else _] =>
                 match c with
                 | py_leb _ _ => destruct c
                 end
             end;
      try reflexivity;
      destruct (py_div _ _); try reflexivity; destruct ok; reflexivity.
Qed.

Lemma check_one_inactive (ex : Exchange) (ok : bool) (m : Mon) :
  status (trade m) <> "ACTIVE"%string -> check_one ex ok m = m.
Proof.
  intros Hne. unfold check_one.
  destruct (String.eqb_spec (status (trade m)) "ACTIVE"); [contradiction|].
  reflexivity.
Qed.

(** The statuses and outcomes the ladder can store. *)
Lemma crossed_values (is_buy : bool) (p : Q) (t : Trade) (st oc : string) :
  crossed is_buy p t = Some (st, oc) ->
  (st = "TP2_HIT" /\ oc = "WIN" \/ st = "TP1_HIT" /\ oc = "WIN" \/
   st = "SL_HIT" /\ oc = "LOSS")%string.
Proof.
  unfold crossed.
  destruct is_buy;
    repeat match goal with
           | |- context [if ?c then _ else _] => destruct c
           end;
    intros E; inversion E; tauto.
Qed.

Lemma crossed_not_active (is_buy : bool) (p : Q) (t : Trade) (st oc : string) :
  crossed is_buy p t = Some (st, oc) -> st <> "ACTIVE"%string.
Proof.
  intros E. destruct (crossed_values _ _ _ _ _ E) as [[-> _]|[[-> _]|[-> _]]];
    discriminate.
Qed.

(** An iteration writes only the status, the outcome and the pnl. *)
Lemma check_one_frame (ex : Exchange) (ok : bool) (t : Trade) (u : bool) (s : Sys) :
  let t' := trade (check_one ex ok (mkMon t u s)) in
  id t' = id t /\ symbol t' = symbol t /\ signal t' = signal t /\
  entry t' = entry t /\ tp1 t' = tp1 t /\ tp2 t' = tp2 t /\ sl t' = sl t /\
  timestamp t' = timestamp t.
Proof.
  destruct (String.eqb_spec (status t) "ACTIVE") as [Hact|Hne].
  - rewrite (run_check_one _ _ _ _ _ Hact).
    destruct (py_iloc _ _) as [last|]; cbn zeta; [|cbn; tauto].
    destruct (crossed _ _ _) as [[st oc]|]; [|cbn; tauto].
    destruct (py_div _ _); [destruct ok|]; cbn; tauto.
  - rewrite check_one_inactive by exact Hne. cbn. tauto.
Qed.

(** The globals after an iteration: only the outbox may grow, and the
    flag is raised only by a trade that left ACTIVE. *)
Lemma check_one_sys (ex : Exchange) (ok : bool) (t : Trade) (u : bool) (s : Sys) :
  let m := check_one ex ok (mkMon t u s) in
  trade_history (sys m) = trade_history s /\
  bot_stats (sys m) = bot_stats s /\
  writes (sys m) = writes s /\
  (sent (sys m) = sent s \/ exists msg, sent (sys m) = sent s ++ [msg]) /\
  (updated m = true ->
   u = true \/ status t = "ACTIVE"%string /\ status (trade m) <> "ACTIVE"%string) /\
  (u = true -> updated m = true).
Proof.
  destruct (String.eqb_spec (status t) "ACTIVE") as [Hact|Hne].
  - rewrite (run_check_one _ _ _ _ _ Hact).
    destruct (py_iloc _ _) as [last|]; cbn zeta; [|cbn; tauto].
    destruct (crossed _ _ _) as [[st oc]|] eqn:Hc; [|cbn; tauto].
    apply crossed_not_active in Hc.
    destruct (py_div _ _); [destruct ok|]; cbn; repeat split; eauto.
  - rewrite check_one_inactive by exact Hne. cbn. tauto.
Qed.

(** ** The monitoring pass *)

Section MonitoringPass.

Variable market : nat -> Exchange.
Variable telegram : nat -> bool.

(** Position [k] of the ledger after the loop is the trade the
    iteration [i + k] leaves behind. *)
Lemma check_loop_nth (trades : list Trade) :
  forall (i : nat) (u : bool) (s : Sys) (k : nat) (t : Trade),
    nth_error trades k = Some t ->
    exists u0 s0,
      nth_error (fst (fst (check_loop market telegram i trades u s))) k
      = Some (trade (check_one (market (i + k)%nat) (telegram (i + k)%nat)
                               (mkMon t u0 s0))).
Proof.
  induction trades as [|a rest IH]; intros i u s k t Hk.
  - destruct k; discriminate.
  - cbn [check_loop].
    destruct (check_loop market telegram (S i) rest _ _) as [[rest' u'] s'] eqn:E.
    destruct k as [|k]; cbn in Hk |- *.
    + injection Hk as ->. exists u, s. rewrite Nat.add_0_r. reflexivity.
    + destruct (IH (S i) (updated (check_one (market i) (telegram i) (mkMon a u s)))
                   (sys (check_one (market i) (telegram i) (mkMon a u s)))
                   k t Hk) as (u0 & s0 & Hn).
      rewrite E in Hn. cbn in Hn.
      exists u0, s0. rewrite Hn. repeat f_equal; lia.
Qed.

Lemma check_loop_length (trades : list Trade) :
  forall (i : nat) (u : bool) (s : Sys),
    length (fst (fst (check_loop market telegram i trades u s))) = length trades.
Proof.
  induction trades as [|a rest IH]; intros i u s; [reflexivity|].
  cbn [check_loop].
  specialize (IH (S i) (updated (check_one (market i) (telegram i) (mkMon a u s)))
                 (sys (check_one (market i) (telegram i) (mkMon a u s)))).
  destruct (check_loop market telegram (S i) rest _ _) as [[rest' u'] s'].
  cbn in *. congruence.
Qed.

(** The globals after the loop, and where a raised flag comes from. *)
Lemma check_loop_sys (trades : list Trade) :
  forall (i : nat) (u : bool) (s : Sys),
    let r := check_loop market telegram i trades u s in
    trade_history (snd r) = trade_history s /\
    bot_stats (snd r) = bot_stats s /\
    writes (snd r) = writes s /\
    (exists msgs, sent (snd r) = sent s ++ msgs) /\
    (snd (fst r) = true ->
     u = true \/
     exists k t t', nth_error trades k = Some t /\
                    nth_error (fst (fst r)) k = Some t' /\
                    status t = "ACTIVE"%string /\ status t' <> "ACTIVE"%string) /\
    (u = true -> snd (fst r) = true).
Proof.
  induction trades as [|a rest IH]; intros i u s.
  - cbn. repeat split; auto. exists []. rewrite app_nil_r. reflexivity.
  - cbn [check_loop].
    pose proof (check_one_sys (market i) (telegram i) a u s) as Hone.
    cbn zeta in Hone.
    set (m := check_one (market i) (telegram i) (mkMon a u s)) in *.
    specialize (IH (S i) (updated m) (sys m)). cbn zeta in IH.
    destruct (check_loop market telegram (S i) rest _ _) as [[rest' u'] s'].
    cbn [fst snd] in *.
    destruct Hone as (Hh & Hb & Hw & Hs & Hu & Hmono).
    destruct IH as (Hh' & Hb' & Hw' & (msgs & Hs') & Hu' & Hmono').
    repeat split; try congruence.
    + destruct Hs as [Hs|(msg & Hs)]; rewrite Hs', Hs.
      * exists msgs. reflexivity.
      * exists (msg :: msgs). rewrite <- app_assoc. reflexivity.
    + intros Hup. destruct (Hu' Hup) as [Hm|(k & t & t' & Hk & Hk' & Ha & Hn)].
      * destruct (Hu Hm) as [->|[Ha Hn]]; [left; reflexivity|].
        right. exists 0%nat, a, (trade m). cbn. auto.
      * right. exists (S k), t, t'. cbn. auto.
    + auto.
Qed.

(** The loop leaves a ledger without ACTIVE trades, the flag and the
    globals as they are. *)
Lemma check_loop_idle (trades : list Trade) :
  forall (i : nat) (u : bool) (s : Sys),
    (forall t, In t trades -> status t <> "ACTIVE"%string) ->
    check_loop market telegram i trades u s = (trades, u, s).
Proof.
  induction trades as [|a rest IH]; intros i u s Hall; [reflexivity|].
  cbn [check_loop].
  rewrite check_one_inactive by (apply Hall; left; reflexivity).
  cbn [trade updated sys].
  rewrite IH by (intros t Ht; apply Hall; right; exact Ht).
  reflexivity.
Qed.

(** [check_trades] in terms of its loop. *)
Lemma run_check_trades (s : Sys) :
  exec (check_trades market telegram) s =
  let r := check_loop market telegram 0 (trade_history s) false s in
  let s1 := mkSys (fst (fst r)) (bot_stats s) (sent (snd r)) (writes s) in
  if snd (fst r)
  then mkSys (fst (fst r)) (bot_stats s) (sent (snd r))
             (writes s ++ [fst (fst r)])
  else s1.
Proof.
  pose proof (check_loop_sys (trade_history s) 0 false s) as H.
  cbn zeta in H. destruct H as (_ & Hb & Hw & _).
  run_eff.
  destruct (check_loop market telegram 0 (trade_history s) false s)
    as [[trades u] s'].
  cbn [fst snd] in *. rewrite Hb, Hw.
  destruct u; reflexivity.
Qed.

Lemma check_trades_history (s : Sys) :
  trade_history (exec (check_trades market telegram) s) =
  fst (fst (check_loop market telegram 0 (trade_history s) false s)).
Proof.
  rewrite run_check_trades. cbn zeta.
  destruct (snd (fst _)); reflexivity.
Qed.

Lemma check_trades_nth (s : Sys) (i : nat) (t : Trade) :
  nth_error (trade_history s) i = Some t ->
  exists u0 s0,
    nth_error (trade_history (exec (check_trades market telegram) s)) i
    = Some (trade (check_one (market i) (telegram i) (mkMon t u0 s0))).
Proof.
  intros Hi. rewrite check_trades_history.
  apply (check_loop_nth (trade_history s) 0 false s i t Hi).
Qed.

End MonitoringPass.

(** C7. A monitoring pass keeps the ledger's length and order; at every
    position the id, symbol, signal, entry, tp1, tp2, sl and timestamp
    are the ones before the pass, and a trade that is not ACTIVE (so in
    particular one that is TP1_HIT, TP2_HIT or SL_HIT) is left exactly
    as it was: only status, outcome and pnl_percent of ACTIVE trades can
    change. *)
Theorem check_trades_frame (market : nat -> Exchange) (telegram : nat -> bool)
  (s : Sys) :
  let s' := exec (check_trades market telegram) s in
  length (trade_history s') = length (trade_history s) /\
  forall (i : nat) (t : Trade),
    nth_error (trade_history s) i = Some t ->
    exists t',
      nth_error (trade_history s') i = Some t' /\
      id t' = id t /\ symbol t' = symbol t /\ signal t' = signal t /\
      entry t' = entry t /\ tp1 t' = tp1 t /\ tp2 t' = tp2 t /\
      sl t' = sl t /\ timestamp t' = timestamp t /\
      (status t <> "ACTIVE"%string -> t' = t) /\
      (In (status t) ["TP1_HIT"; "TP2_HIT"; "SL_HIT"]%string -> t' = t).
Proof.
  cbn zeta. split.
  - rewrite check_trades_history. apply check_loop_length.
  - intros i t Hi.
    destruct (check_trades_nth market telegram s i t Hi) as (u0 & s0 & Hn).
    eexists. split; [exact Hn|].
    pose proof (check_one_frame (market i) (telegram i) t u0 s0) as Hf.
    cbn zeta in Hf.
    destruct Hf as (H1 & H2 & H3 & H4 & H5 & H6 & H7 & H8).
    assert (Hfix : status t <> "ACTIVE"%string ->
                   trade (check_one (market i) (telegram i) (mkMon t u0 s0)) = t).
    { intros Hne. rewrite check_one_inactive by exact Hne. reflexivity. }
    refine (conj H1 (conj H2 (conj H3 (conj H4 (conj H5 (conj H6
             (conj H7 (conj H8 (conj Hfix _))))))))).
    intros Hin. apply Hfix. intros Hact. rewrite Hact in Hin.
    cbn in Hin. intuition discriminate.
Qed.

(** C2. For an ACTIVE trade whose frame has a latest close [price], the
    pass checks tp2, then tp1, then sl.  BUY: price >= tp2 gives
    TP2_HIT/WIN whatever the other levels are; else price >= tp1 gives
    TP1_HIT/WIN; else price <= sl gives SL_HIT/LOSS.  A trade that is
    not BUY: the same with <= for the targets and >= for the stop.
    Otherwise the trade is left as it was. *)
Theorem check_trades_priority (market : nat -> Exchange)
  (telegram : nat -> bool) (s : Sys) (i : nat) (t : Trade) (last : Bar) :
  nth_error (trade_history s) i = Some t ->
  status t = "ACTIVE"%string ->
  py_iloc (fetch_data_safe (market i) (symbol t) TIMEFRAME_ENTRY) (-1)
  = Some last ->
  let price := b_close last in
  exists t',
    nth_error (trade_history (exec (check_trades market telegram) s)) i
    = Some t' /\
    (py_contains "BUY" (signal t) = true ->
     (tp2 t <= price ->
      status t' = "TP2_HIT"%string /\ outcome t' = Some "WIN"%string) /\
     (price < tp2 t -> tp1 t <= price ->
      status t' = "TP1_HIT"%string /\ outcome t' = Some "WIN"%string) /\
     (price < tp2 t -> price < tp1 t -> price <= sl t ->
      status t' = "SL_HIT"%string /\ outcome t' = Some "LOSS"%string) /\
     (price < tp2 t -> price < tp1 t -> sl t < price -> t' = t)) /\
    (py_contains "BUY" (signal t) = false ->
     (price <= tp2 t ->
      status t' = "TP2_HIT"%string /\ outcome t' = Some "WIN"%string) /\
     (tp2 t < price -> price <= tp1 t ->
      status t' = "TP1_HIT"%string /\ outcome t' = Some "WIN"%string) /\
     (tp2 t < price -> tp1 t < price -> sl t <= price ->
      status t' = "SL_HIT"%string /\ outcome t' = Some "LOSS"%string) /\
     (tp2 t < price -> tp1 t < price -> price < sl t -> t' = t)).
Proof.
  intros Hi Hact Hlast price.
  destruct (check_trades_nth market telegram s i t Hi) as (u0 & s0 & Hn).
  eexists. split; [exact Hn|].
  rewrite (run_check_one _ _ _ _ _ Hact), Hlast. cbn zeta. fold price.
  unfold crossed.
  split; intros ->;
    destruct (price >=? tp2 t) eqn:E2; destruct (price >=? tp1 t) eqn:E1;
    destruct (price <=? sl t) eqn:E0;
    destruct (price <=? tp2 t) eqn:F2; destruct (price <=? tp1 t) eqn:F1;
    destruct (price >=? sl t) eqn:F0; to_order;
    repeat split; intros;
    try (exfalso; lra);
    destruct (py_div _ _); try destruct (telegram i); reflexivity.
Qed.

(** ** Realized percentage *)

Lemma pnl_positive_buy (entry price : Q) :
  0 < entry -> entry < price -> 0 < (price - entry) / entry * 100.
Proof.
  intros He Hp.
  assert (H : 0 < (price - entry) / entry).
  { apply Qlt_shift_div_l; [exact He | lra]. }
  lra.
Qed.

Lemma pnl_positive_sell (entry price : Q) :
  0 < entry -> price < entry -> 0 < - ((price - entry) / entry * 100).
Proof.
  intros He Hp.
  assert (H : (price - entry) / entry < 0).
  { apply Qlt_shift_div_r; [exact He | lra]. }
  lra.
Qed.

(** C4. When a pass resolves an ACTIVE trade at the latest close
    [price], the stored pnl_percent is (price - entry) / entry * 100 for
    a BUY trade and its opposite otherwise; the division needs an entry
    that is not zero.  An entry is a close of the exchange
    ([generate_and_send_signal], lines 231 and 256), so it is positive,
    and then a BUY trade resolved at price > entry and a non-BUY trade
    resolved at price < entry have pnl_percent > 0. *)
Theorem check_trades_pnl (market : nat -> Exchange) (telegram : nat -> bool)
  (s : Sys) (i : nat) (t : Trade) (last : Bar) :
  nth_error (trade_history s) i = Some t ->
  status t = "ACTIVE"%string ->
  py_iloc (fetch_data_safe (market i) (symbol t) TIMEFRAME_ENTRY) (-1)
  = Some last ->
  ~ entry t == 0 ->
  let price := b_close last in
  let is_buy := py_contains "BUY" (signal t) in
  exists t',
    nth_error (trade_history (exec (check_trades market telegram) s)) i
    = Some t' /\
    (status t' <> "ACTIVE"%string ->
     (is_buy = true ->
      pnl_percent t' = (price - entry t) / entry t * 100) /\
     (is_buy = false ->
      pnl_percent t' = - ((price - entry t) / entry t * 100)) /\
     (0 < entry t -> is_buy = true -> entry t < price ->
      0 < pnl_percent t') /\
     (0 < entry t -> is_buy = false -> price < entry t ->
      0 < pnl_percent t')).
Proof.
  intros Hi Hact Hlast Hentry price is_buy.
  destruct (check_trades_nth market telegram s i t Hi) as (u0 & s0 & Hn).
  eexists. split; [exact Hn|].
  rewrite (run_check_one _ _ _ _ _ Hact), Hlast. cbn zeta.
  fold price. fold is_buy.
  destruct (crossed is_buy price t) as [[st oc]|].
  - rewrite (py_div_some _ _ Hentry).
    assert (Hpnl : forall u1 s1 u2 s2,
               pnl_percent
                 (trade (if telegram i
                         then mkMon (set_pnl_percent
                                       (if negb is_buy
                                        then - ((price - entry t) / entry t * 100)
                                        else (price - entry t) / entry t * 100)
                                       (set_status st (set_outcome (Some oc) t)))
                                    u1 s1
                         else mkMon (set_pnl_percent
                                       (if negb is_buy
                                        then - ((price - entry t) / entry t * 100)
                                        else (price - entry t) / entry t * 100)
                                       (set_status st (set_outcome (Some oc) t)))
                                    u2 s2))
               = if negb is_buy
                 then - ((price - entry t) / entry t * 100)
                 else (price - entry t) / entry t * 100).
    { intros. destruct (telegram i); reflexivity. }
    rewrite Hpnl. intros _.
    repeat split.
    + intros ->. reflexivity.
    + intros ->. reflexivity.
    + intros He -> Hp. cbn [negb]. apply pnl_positive_buy; assumption.
    + intros He -> Hp. cbn [negb]. apply pnl_positive_sell; assumption.
  - cbn [trade]. intros Hne. contradiction.
Qed.


(** ** Writes of the monitoring pass *)

Section MonitorWrites.

Variable market : nat -> Exchange.
Variable telegram : nat -> bool.

(** With no ACTIVE trade the pass changes nothing: no write, no
    notification, the same ledger. *)
Lemma check_trades_idle (s : Sys) :
  (forall t, In t (trade_history s) -> status t <> "ACTIVE"%string) ->
  exec (check_trades market telegram) s = s.
Proof.
  intros Hall. rewrite run_check_trades.
  rewrite (check_loop_idle market telegram _ 0 false s Hall).
  cbn. destruct s; reflexivity.
Qed.

(** The pass writes at most once, the ledger it leaves, and only after
    some trade left ACTIVE. *)
Lemma check_trades_write_needs_transition (s : Sys) :
  let s' := exec (check_trades market telegram) s in
  writes s' = writes s \/
  writes s' = writes s ++ [trade_history s'] /\
  exists i, transitioned (trade_history s) (trade_history s') i.
Proof.
  cbn zeta. rewrite check_trades_history, run_check_trades. cbn zeta.
  pose proof (check_loop_sys market telegram (trade_history s) 0 false s) as H.
  cbn zeta in H. destruct H as (_ & _ & _ & _ & Hu & _).
  destruct (snd (fst _)) eqn:E; [right | left; reflexivity].
  split; [reflexivity|].
  destruct (Hu eq_refl) as [Hf|(k & t & t' & H1 & H2 & H3 & H4)];
    [discriminate|].
  exists k, t, t'. auto.
Qed.

(** A delivered resolution of a trade with a non-zero entry raises the flag. *)
Lemma check_one_raises_flag (ex : Exchange) (t : Trade) (u : bool) (s : Sys) :
  status t = "ACTIVE"%string -> ~ entry t == 0 ->
  status (trade (check_one ex true (mkMon t u s))) <> "ACTIVE"%string ->
  updated (check_one ex true (mkMon t u s)) = true.
Proof.
  intros Hact Hentry. rewrite (run_check_one _ _ _ _ _ Hact).
  destruct (py_iloc _ _) as [last|]; cbn zeta; [|cbn; congruence].
  destruct (crossed _ _ _) as [[st oc]|]; [|cbn; congruence].
  rewrite (py_div_some _ _ Hentry). reflexivity.
Qed.

Lemma check_loop_raises_flag (trades : list Trade) :
  forall (i : nat) (u : bool) (s : Sys) (k : nat),
    (forall j, telegram j = true) ->
    (forall t, In t trades -> ~ entry t == 0) ->
    transitioned trades (fst (fst (check_loop market telegram i trades u s))) k ->
    snd (fst (check_loop market telegram i trades u s)) = true.
Proof.
  induction trades as [|a rest IH]; intros i u s k Hok Hentry Htr.
  - destruct Htr as (t & t' & Hk & _). destruct k; discriminate.
  - revert Htr. cbn [check_loop].
    pose proof (check_loop_sys market telegram rest (S i)
                  (updated (check_one (market i) (telegram i) (mkMon a u s)))
                  (sys (check_one (market i) (telegram i) (mkMon a u s))))
      as Hs.
    cbn zeta in Hs. destruct Hs as (_ & _ & _ & _ & _ & Hmono).
    specialize (IH (S i)
                  (updated (check_one (market i) (telegram i) (mkMon a u s)))
                  (sys (check_one (market i) (telegram i) (mkMon a u s)))).
    destruct (check_loop market telegram (S i) rest _ _) as [[rest' u'] s'].
    cbn [fst snd] in *.
    intros (t & t' & Hk & Hk' & Hact & Hne).
    destruct k as [|k]; cbn in Hk, Hk'.
    + injection Hk as ->. injection Hk' as <-.
      apply Hmono. revert Hne. rewrite Hok.
      apply check_one_raises_flag; [exact Hact|].
      apply Hentry. left. reflexivity.
    + apply (IH k Hok).
      * intros x Hx. apply Hentry. right. exact Hx.
      * exists t, t'. auto.
Qed.

(** When every notification is delivered and no entry is zero, the pass
    writes the ledger exactly when some trade left ACTIVE. *)
Lemma check_trades_write_iff_delivered (s : Sys) :
  (forall j, telegram j = true) ->
  (forall t, In t (trade_history s) -> ~ entry t == 0) ->
  let s' := exec (check_trades market telegram) s in
  (writes s' = writes s ++ [trade_history s'] <->
   exists i, transitioned (trade_history s) (trade_history s') i) /\
  (writes s' = writes s <->
   ~ exists i, transitioned (trade_history s) (trade_history s') i).
Proof.
  intros Hok Hentry. cbn zeta.
  assert (Hgrow : forall (l : list (list Trade)) x, l <> l ++ [x]).
  { intros l x E. apply (f_equal (@length _)) in E.
    rewrite length_app in E. cbn in E. lia. }
  pose proof (check_trades_write_needs_transition s) as Hw. cbn zeta in Hw.
  assert (Hflag : (exists i, transitioned (trade_history s)
                     (trade_history (exec (check_trades market telegram) s)) i) ->
                  writes (exec (check_trades market telegram) s)
                  = writes s ++ [trade_history (exec (check_trades market telegram) s)]).
  { intros (k & Htr). revert Htr.
    rewrite check_trades_history. intros Htr.
    pose proof (check_loop_raises_flag (trade_history s) 0 false s k Hok Hentry Htr)
      as Hup.
    rewrite run_check_trades. cbn zeta. rewrite Hup. reflexivity. }
  split; split.
  - intros E. destruct Hw as [Hw|[_ Hw]]; [|exact Hw].
    rewrite Hw in E. apply Hgrow in E. contradiction.
  - exact Hflag.
  - intros E Htr. apply Hflag in Htr. rewrite E in Htr.
    apply Hgrow in Htr. contradiction.
  - intros Hno. destruct Hw as [Hw|[_ Hw]]; [exact Hw | contradiction].
Qed.

End MonitorWrites.

(** C8, the notification raising.  One ACTIVE BUY trade (entry 100,
    tp2 120) and a latest close of 121: the pass moves the trade to
    TP2_HIT/WIN with pnl_percent 21, [send_message] raises before
    [updated = True] is reached, and the pass ends without writing the
    ledger and without a delivered notification; with the notification
    delivered the same pass writes it. *)
Theorem check_trades_unsaved_transition :
  let s := sys_of [buy_trade] in
  let lost := exec (check_trades (fun _ => flat_market 121) (fun _ => false)) s in
  let kept := exec (check_trades (fun _ => flat_market 121) (fun _ => true)) s in
  transitioned (trade_history s) (trade_history lost) 0 /\
  (exists t', trade_history lost = [t'] /\
              status t' = "TP2_HIT"%string /\ outcome t' = Some "WIN"%string /\
              pnl_percent t' == 21) /\
  writes lost = writes s /\
  sent lost = sent s /\
  trade_history kept = trade_history lost /\
  writes kept = writes s ++ [trade_history kept].
Proof.
  cbn zeta. split.
  - eexists. eexists. split; [reflexivity|]. split; [vm_compute; reflexivity|].
    split; [reflexivity | discriminate].
  - split.
    + eexists. split; [vm_compute; reflexivity|].
      repeat split; reflexivity.
    + repeat split; vm_compute; reflexivity.
Qed.

(** ** Daily report *)

Lemma has_outcome_iff (o : string) (t : Trade) :
  has_outcome o t = true <-> outcome t = Some o.
Proof.
  unfold has_outcome. destruct (outcome t) as [o'|].
  - rewrite String.eqb_eq. split; congruence.
  - split; discriminate.
Qed.

(** C9. The report is about the trades of the ledger, as the forced
    monitoring pass leaves it, whose timestamp is not older than 24
    hours at the instant [now]; a trade stamped 24h + 1s before [now] is
    out and one stamped 23h59m before [now] is in.  Over these trades it
    gives their number, the number with outcome WIN, the number with
    outcome LOSS and the sum of pnl_percent, added up from zero in
    ledger order; with none, the report says so. *)
Theorem daily_report_window (market : nat -> Exchange) (telegram : nat -> bool)
  (now : Z) (s : Sys) :
  let checked := exec (check_trades market telegram) s in
  let history := trade_history checked in
  let recent := filter (fun t => (now - hours_24 <=? timestamp t)%Z) history in
  exec (daily_report market telegram true now) s
  = mkSys history (bot_stats checked)
          (sent checked ++ [ReportMsg (report_of now history)])
          (writes checked) /\
  (forall t, In t recent <->
             In t history /\ (now - timestamp t <= hours_24)%Z) /\
  (forall t, (timestamp t = now - (hours_24 + 1000000))%Z -> ~ In t recent) /\
  (forall t, In t history ->
             (timestamp t = now - (23 * 3600 + 59 * 60) * 1000000)%Z ->
             In t recent) /\
  (recent = [] -> report_of now history = NoTrades) /\
  (recent <> [] ->
   report_of now history
   = Summary (Z.of_nat (length recent))
             (Z.of_nat (length (filter (fun t => has_outcome "WIN" t) recent)))
             (Z.of_nat (length (filter (fun t => has_outcome "LOSS" t) recent)))
             (fold_left Qplus (map pnl_percent recent) 0)) /\
  (forall t, In t (filter (has_outcome "WIN") recent) <->
             In t recent /\ outcome t = Some "WIN"%string) /\
  (forall t, In t (filter (has_outcome "LOSS") recent) <->
             In t recent /\ outcome t = Some "LOSS"%string) /\
  (forall (front : list Trade) (t : Trade),
      recent = front ++ [t] ->
      fold_left Qplus (map pnl_percent recent) 0
      = fold_left Qplus (map pnl_percent front) 0 + pnl_percent t) /\
  hours_24 = (86400 * 1000000)%Z.
Proof.
  cbn zeta.
  set (checked := exec (check_trades market telegram) s).
  assert (Hfilter : forall l : list Trade,
             filter (fun t => (timestamp t >=? now - hours_24)%Z) l
             = filter (fun t => (now - hours_24 <=? timestamp t)%Z) l).
  { intros l. apply filter_ext. intros t. apply Z.geb_leb. }
  split.
  { unfold daily_report, try_except, bind, get, bot_send_message, modify, exec.
    cbn beta.
    destruct (check_trades market telegram s) as [r s1] eqn:E.
    assert (Hs1 : s1 = checked) by (unfold checked, exec; rewrite E; reflexivity).
    assert (Hr : r = Return tt).
    { revert E. unfold check_trades, bind, get, modify, save_history, ret.
      destruct (check_loop _ _ _ _ _ _) as [[tr u] s2].
      destruct u; intros E; inversion E; reflexivity. }
    subst r s1. reflexivity. }
  split.
  { intros t. rewrite filter_In, Z.leb_le. split; intros [H1 H2]; split;
      try assumption; lia. }
  split.
  { intros t Ht. rewrite filter_In, Z.leb_le. intros [_ H]. unfold hours_24 in *. lia. }
  split.
  { intros t Hin Ht. rewrite filter_In, Z.leb_le. split; [exact Hin|].
    unfold hours_24. lia. }
  split.
  { intros Hnil. unfold report_of. rewrite Hfilter, Hnil. reflexivity. }
  split.
  { intros Hne. unfold report_of. rewrite Hfilter.
    destruct (filter _ (trade_history checked)) as [|a l]; [contradiction|].
    reflexivity. }
  split; [|split]; try (intros t; rewrite filter_In, has_outcome_iff; reflexivity).
  split; [|reflexivity].
  intros front t ->. rewrite map_app, fold_left_app. reflexivity.
Qed.

(** ** Status page *)

(** C10. The win rate of the status page is computed for every ledger
    without raising: when no trade has outcome WIN or LOSS it is 0 and
    no division takes place; otherwise it is
    wins / (wins + losses) * 100, whose divisor is then positive. *)
Theorem home_win_rate (s : Sys) :
  let wins := py_len (filter (has_outcome "WIN") (trade_history s)) in
  let losses := py_len (filter (has_outcome "LOSS") (trade_history s)) in
  exists wr : Q,
    home s = Some (py_len (trade_history s), wins, losses, wr) /\
    ((forall t, In t (trade_history s) ->
                outcome t <> Some "WIN"%string /\
                outcome t <> Some "LOSS"%string) ->
     (wins + losses = 0)%Z /\ wr = 0) /\
    ((wins + losses = 0)%Z -> wr = 0) /\
    ((wins + losses > 0)%Z ->
     ~ inject_Z (wins + losses) == 0 /\
     py_div (inject_Z wins) (inject_Z (wins + losses))
     = Some (inject_Z wins / inject_Z (wins + losses)) /\
     wr = inject_Z wins / inject_Z (wins + losses) * 100).
Proof.
  cbn zeta. unfold home.
  set (wins := py_len (filter (has_outcome "WIN") (trade_history s))).
  set (losses := py_len (filter (has_outcome "LOSS") (trade_history s))).
  assert (Hw : (0 <= wins)%Z) by apply Nat2Z.is_nonneg.
  assert (Hl : (0 <= losses)%Z) by apply Nat2Z.is_nonneg.
  assert (Hnone : (forall t, In t (trade_history s) ->
                             outcome t <> Some "WIN"%string /\
                             outcome t <> Some "LOSS"%string) ->
                  (wins + losses = 0)%Z).
  { intros Hall.
    assert (Hempty : forall o, (o = "WIN" \/ o = "LOSS")%string ->
                               filter (has_outcome o) (trade_history s) = []).
    { intros o Ho.
      destruct (filter (has_outcome o) (trade_history s)) as [|t l] eqn:E;
        [reflexivity|].
      assert (Hin : In t (filter (has_outcome o) (trade_history s)))
        by (rewrite E; left; reflexivity).
      apply filter_In in Hin. destruct Hin as [Hin Ht].
      apply has_outcome_iff in Ht. destruct (Hall t Hin) as [H1 H2].
      destruct Ho as [-> | ->]; contradiction. }
    unfold wins, losses.
    rewrite (Hempty "WIN"%string), (Hempty "LOSS"%string) by auto.
    reflexivity. }
  destruct (wins + losses >? 0)%Z eqn:E.
  - apply Z.gtb_lt in E.
    assert (Hnz : ~ inject_Z (wins + losses) == 0).
    { intros H. unfold Qeq in H. cbn in H. lia. }
    rewrite (py_div_some _ _ Hnz).
    eexists. split; [reflexivity|].
    split; [intros Hall; apply Hnone in Hall; lia|].
    split; [intros H0; lia|].
    intros _. auto.
  - assert (E' : (wins + losses <= 0)%Z).
    { destruct (Z.gtb_spec (wins + losses) 0); [discriminate | assumption]. }
    exists 0. split; [reflexivity|].
    split; [intros Hall; split; [apply Hnone, Hall | reflexivity]|].
    split; [reflexivity|].
    intros Hpos. lia.
Qed.

(** ** Signal generation *)

Section SignalInputs.

Variable exchange : Exchange.
Variable send_ok : bool.
Variable now : Z.
Variable sym : string.
Variable ohlcv_d : list Candle.
Variable cpr : CPR.
Variables last_4h last_1h : Bar.

Hypothesis daily_fetched : exchange sym "1d"%string 0%nat = Some ohlcv_d.
Hypothesis levels_defined : calculate_cpr_levels ohlcv_d = Some cpr.
Hypothesis frame_4h :
  py_iloc (fetch_data_safe exchange sym TIMEFRAME_MAIN) (-1) = Some last_4h.
Hypothesis frame_1h :
  py_iloc (fetch_data_safe exchange sym TIMEFRAME_ENTRY) (-1) = Some last_1h.

Let price : Q := b_close last_4h.
Let the_signal : string :=
  master_signal (trend_of last_4h) (trend_of last_1h) price (PP cpr).

Ltac run_generate :=
  run_eff;
  rewrite daily_fetched, levels_defined, frame_4h, frame_1h;
  rewrite (iloc_last_nonempty _ _ frame_4h), (iloc_last_nonempty _ _ frame_1h);
  cbn [is_none orb].

(** A WAIT leaves the ledger, the outbox, the file and the counters alone. *)
Lemma run_generate_wait (s : Sys) :
  the_signal = "WAIT (Neutral)"%string ->
  exec (generate_and_send_signal exchange send_ok now sym) s = s.
Proof.
  unfold the_signal, price. intros Hsig. run_generate. rewrite Hsig.
  change (py_contains "BUY" "WAIT (Neutral)") with false.
  change (py_contains "SELL" "WAIT (Neutral)") with false.
  reflexivity.
Qed.

(** A STRONG BUY: the trade is appended and saved, then the message is
    sent; the counters move only if the send returns. *)
Lemma run_generate_buy (s : Sys) :
  the_signal = "STRONG BUY"%string ->
  exec (generate_and_send_signal exchange send_ok now sym) s =
  let tp1 := R1 cpr in
  let tp2 := R2 cpr in
  let sl := py_min (BC cpr) (TC cpr) in
  let t := mkTrade (py_len (trade_history s) + 1) sym "STRONG BUY" price
                   tp1 tp2 sl now "ACTIVE" None 0 in
  let history := trade_history s ++ [t] in
  if send_ok
  then mkSys history
             (mkStats "operational" (total_analyses (bot_stats s) + 1)
                      (Some now))
             (sent s ++ [SignalMsg sym price "STRONG BUY" (trend_of last_4h)
                                   (trend_of last_1h) (price >? PP cpr)
                                   tp1 tp2 sl])
             (writes s ++ [history])
  else mkSys history (bot_stats s) (sent s) (writes s ++ [history]).
Proof.
  unfold the_signal, price. intros Hsig. run_generate. rewrite Hsig.
  change (py_contains "BUY" "STRONG BUY") with true.
  cbn [negb andb]. destruct send_ok; reflexivity.
Qed.

(** A STRONG SELL, likewise with the support levels. *)
Lemma run_generate_sell (s : Sys) :
  the_signal = "STRONG SELL"%string ->
  exec (generate_and_send_signal exchange send_ok now sym) s =
  let tp1 := S1 cpr in
  let tp2 := S2 cpr in
  let sl := py_max (BC cpr) (TC cpr) in
  let t := mkTrade (py_len (trade_history s) + 1) sym "STRONG SELL" price
                   tp1 tp2 sl now "ACTIVE" None 0 in
  let history := trade_history s ++ [t] in
  if send_ok
  then mkSys history
             (mkStats "operational" (total_analyses (bot_stats s) + 1)
                      (Some now))
             (sent s ++ [SignalMsg sym price "STRONG SELL" (trend_of last_4h)
                                   (trend_of last_1h) (price >? PP cpr)
                                   tp1 tp2 sl])
             (writes s ++ [history])
  else mkSys history (bot_stats s) (sent s) (writes s ++ [history]).
Proof.
  unfold the_signal, price. intros Hsig. run_generate. rewrite Hsig.
  change (py_contains "BUY" "STRONG SELL") with false.
  change (py_contains "SELL" "STRONG SELL") with true.
  cbn [negb andb]. destruct send_ok; reflexivity.
Qed.

End SignalInputs.

(** The rule on its own: which inputs give which signal. *)
Lemma master_signal_cases (trend_4h trend_1h : string) (price pp : Q) :
  let signal := master_signal trend_4h trend_1h price pp in
  let buy := (trend_4h = "BULLISH" /\ trend_1h = "BULLISH")%string
             /\ pp < price in
  let sell := (trend_4h = "BEARISH" /\ trend_1h = "BEARISH")%string
              /\ price < pp in
  (signal = "STRONG BUY"%string <-> buy) /\
  (signal = "STRONG SELL"%string <-> sell) /\
  (signal = "WAIT (Neutral)"%string <-> ~ buy /\ ~ sell).
Proof.
  cbn zeta. unfold master_signal.
  destruct (String.eqb_spec trend_4h "BULLISH") as [-> | N4];
    destruct (String.eqb_spec trend_1h "BULLISH") as [-> | N1];
    destruct (price >? pp) eqn:Egt; cbn [andb];
    try (destruct (String.eqb_spec trend_4h "BEARISH") as [-> | M4]);
    try (destruct (String.eqb_spec trend_1h "BEARISH") as [-> | M1]);
    cbn [String.eqb Ascii.eqb Bool.eqb andb];
    try (destruct (price <? pp) eqn:Elt); cbn [andb]; to_order;
    repeat split; intros;
    repeat match goal with
           | H : _ /\ _ |- _ => destruct H
           | H : ~ _ |- False => apply H; clear H
           | |- ~ _ => intro
           end;
    try discriminate; try congruence; try (exfalso; lra);
    try (repeat split; auto; fail);
    exfalso;
    match goal with
    | H : ~ _ |- _ => apply H; repeat split; auto; fail
    end.
Qed.

(** C1. The signal is a function of the two trends, the pivot point and
    the price alone: STRONG BUY exactly when both trends are BULLISH and
    price > PP, STRONG SELL exactly when both are BEARISH and
    price < PP, WAIT in every other case; and on a WAIT
    [generate_and_send_signal] creates no trade and sends no
    notification: it leaves the whole state as it was. *)
Theorem generate_signal_decision :
  (forall (trend_4h trend_1h : string) (price pp : Q),
      let signal := master_signal trend_4h trend_1h price pp in
      (signal = "STRONG BUY"%string <->
       (trend_4h = "BULLISH" /\ trend_1h = "BULLISH")%string /\ pp < price) /\
      (signal = "STRONG SELL"%string <->
       (trend_4h = "BEARISH" /\ trend_1h = "BEARISH")%string /\ price < pp) /\
      (signal = "WAIT (Neutral)"%string <->
       ~ ((trend_4h = "BULLISH" /\ trend_1h = "BULLISH")%string /\ pp < price)
       /\
       ~ ((trend_4h = "BEARISH" /\ trend_1h = "BEARISH")%string /\ price < pp)))
  /\
  (forall (exchange : Exchange) (send_ok : bool) (now : Z) (sym : string)
          (s : Sys) (ohlcv_d : list Candle) (cpr : CPR) (last_4h last_1h : Bar),
      exchange sym "1d"%string 0%nat = Some ohlcv_d ->
      calculate_cpr_levels ohlcv_d = Some cpr ->
      py_iloc (fetch_data_safe exchange sym TIMEFRAME_MAIN) (-1) = Some last_4h ->
      py_iloc (fetch_data_safe exchange sym TIMEFRAME_ENTRY) (-1) = Some last_1h ->
      master_signal (trend_of last_4h) (trend_of last_1h) (b_close last_4h)
                    (PP cpr) = "WAIT (Neutral)"%string ->
      let s' := exec (generate_and_send_signal exchange send_ok now sym) s in
      trade_history s' = trade_history s /\ sent s' = sent s /\ s' = s).
Proof.
  split.
  - intros trend_4h trend_1h price pp.
    exact (master_signal_cases trend_4h trend_1h price pp).
  - intros exchange send_ok now sym s ohlcv_d cpr last_4h last_1h
           Hd Hc H4 H1 Hsig. cbn zeta.
    rewrite (run_generate_wait exchange send_ok now sym ohlcv_d cpr
               last_4h last_1h Hd Hc H4 H1 s Hsig).
    auto.
Qed.

(** C3. On a directional signal the trade appended to the ledger has,
    for STRONG BUY, tp1 = R1, tp2 = R2 and sl = min(BC, TC), and for
    STRONG SELL, tp1 = S1, tp2 = S2 and sl = max(BC, TC); it is ACTIVE,
    without outcome, with pnl_percent 0, and its entry is the price the
    signal was evaluated at, the latest 4h close. *)
Theorem generate_signal_levels (exchange : Exchange) (send_ok : bool)
  (now : Z) (sym : string) (s : Sys) (ohlcv_d : list Candle) (cpr : CPR)
  (last_4h last_1h : Bar) :
  exchange sym "1d"%string 0%nat = Some ohlcv_d ->
  calculate_cpr_levels ohlcv_d = Some cpr ->
  py_iloc (fetch_data_safe exchange sym TIMEFRAME_MAIN) (-1) = Some last_4h ->
  py_iloc (fetch_data_safe exchange sym TIMEFRAME_ENTRY) (-1) = Some last_1h ->
  let price := b_close last_4h in
  let sig := master_signal (trend_of last_4h) (trend_of last_1h) price
                           (PP cpr) in
  let s' := exec (generate_and_send_signal exchange send_ok now sym) s in
  (sig = "STRONG BUY"%string ->
   exists t,
     trade_history s' = trade_history s ++ [t] /\
     signal t = "STRONG BUY"%string /\ symbol t = sym /\
     tp1 t = R1 cpr /\ tp2 t = R2 cpr /\
     sl t = py_min (BC cpr) (TC cpr) /\ sl t == Qmin (BC cpr) (TC cpr) /\
     status t = "ACTIVE"%string /\ entry t = price /\
     outcome t = None /\ pnl_percent t = 0) /\
  (sig = "STRONG SELL"%string ->
   exists t,
     trade_history s' = trade_history s ++ [t] /\
     signal t = "STRONG SELL"%string /\ symbol t = sym /\
     tp1 t = S1 cpr /\ tp2 t = S2 cpr /\
     sl t = py_max (BC cpr) (TC cpr) /\ sl t == Qmax (BC cpr) (TC cpr) /\
     status t = "ACTIVE"%string /\ entry t = price /\
     outcome t = None /\ pnl_percent t = 0).
Proof.
  intros Hd Hc H4 H1. cbn zeta. split; intros Hsig.
  - rewrite (run_generate_buy exchange send_ok now sym ohlcv_d cpr
               last_4h last_1h Hd Hc H4 H1 s Hsig).
    cbn zeta. eexists. split.
    + destruct send_ok; reflexivity.
    + cbn. repeat split; try reflexivity. apply py_min_Qmin.
  - rewrite (run_generate_sell exchange send_ok now sym ohlcv_d cpr
               last_4h last_1h Hd Hc H4 H1 s Hsig).
    cbn zeta. eexists. split.
    + destruct send_ok; reflexivity.
    + cbn. repeat split; try reflexivity. apply py_max_Qmax.
Qed.

(** ** Trend classification *)

Lemma rolling_mean_defined (n : nat) (closes : list Q) (i : nat) :
  (n <= S i)%nat ->
  rolling_mean n closes i = Some (rolling n closes i).
Proof.
  intros Hn. unfold rolling_mean.
  destruct (Nat.leb_spec n (S i)); [reflexivity | lia].
Qed.

Lemma rolling_mean_undefined (n : nat) (closes : list Q) (i : nat) :
  (S i < n)%nat -> rolling_mean n closes i = None.
Proof.
  intros Hn. unfold rolling_mean.
  destruct (Nat.leb_spec n (S i)); [lia | reflexivity].
Qed.

Lemma indicator_rows_app (closes : list Q) (front back : list Candle) :
  forall i : nat,
    indicator_rows closes i (front ++ back)
    = indicator_rows closes i front
      ++ indicator_rows closes (i + length front) back.
Proof.
  induction front as [|c front IH]; intros i.
  - cbn. rewrite Nat.add_0_r. reflexivity.
  - cbn [app indicator_rows length]. rewrite IH.
    replace (S i + length front)%nat with (i + S (length front))%nat by lia.
    destruct (rolling_mean 9 closes i), (rolling_mean 20 closes i); reflexivity.
Qed.

(** Fewer than 20 candles: every row has an undefined average and is
    dropped. *)
Lemma indicator_rows_short (closes : list Q) (ohlcv : list Candle) :
  forall i : nat,
    (i + length ohlcv < 20)%nat -> indicator_rows closes i ohlcv = [].
Proof.
  induction ohlcv as [|c rest IH]; intros i Hlen; [reflexivity|].
  cbn [indicator_rows length] in *.
  rewrite (rolling_mean_undefined 20) by lia.
  rewrite IH by lia.
  destruct (rolling_mean 9 closes i); reflexivity.
Qed.

(** C6. The trend of a row is BULLISH exactly when its 9-bar average is
    strictly greater than its 20-bar average and BEARISH otherwise, so
    BEARISH when the two are equal; and a series of at least 20 candles
    has such a row at its latest bar: the latest candle with the two
    averages pandas gives there. *)
Theorem trend_classification :
  (forall row : Bar,
      (trend_of row = "BULLISH"%string <-> b_sma20 row < b_sma9 row) /\
      (trend_of row = "BEARISH"%string <-> ~ b_sma20 row < b_sma9 row) /\
      (b_sma9 row == b_sma20 row -> trend_of row = "BEARISH"%string)) /\
  (forall ohlcv : list Candle,
      (20 <= length ohlcv)%nat ->
      exists latest row,
        nth_error ohlcv (length ohlcv - 1) = Some latest /\
        py_iloc (with_indicators ohlcv) (-1) = Some row /\
        b_candle row = latest /\
        let closes := map c_close ohlcv in
        b_sma9 row = rolling 9%nat closes (length ohlcv - 1)%nat /\
        b_sma20 row = rolling 20%nat closes (length ohlcv - 1)%nat).
Proof.
  split.
  - intros row. unfold trend_of.
    destruct (b_sma9 row >? b_sma20 row) eqn:E; to_order.
    + repeat split; intros; try discriminate; try assumption.
      * exfalso. auto.
      * exfalso. lra.
    + repeat split; intros; try discriminate; try reflexivity.
      * exfalso. lra.
      * lra.
  - intros ohlcv Hlen.
    destruct (last_row ohlcv) as (front & c & ->).
    { intros ->. cbn in Hlen. lia. }
    rewrite length_app in Hlen. cbn [length] in Hlen.
    exists c.
    unfold with_indicators. rewrite indicator_rows_app.
    cbn [indicator_rows Nat.add].
    rewrite (rolling_mean_defined 9), (rolling_mean_defined 20) by lia.
    eexists.
    assert (Hidx : (length (front ++ [c]) - 1)%nat = length front).
    { rewrite length_app. cbn [length]. lia. }
    rewrite Hidx. split.
    { rewrite nth_error_app2, Nat.sub_diag by lia. reflexivity. }
    split; [apply iloc_last_app|].
    split; [reflexivity|].
    cbn zeta. cbn [b_sma9 b_sma20]. split; reflexivity.
Qed.

(** * Further properties of the code *)

(** ** Geometry of the pivot levels *)

Lemma calculate_cpr_levels_app (front : list Candle) (prev cur : Candle) :
  calculate_cpr_levels (front ++ [prev; cur])
  = let H := c_high prev in
    let L := c_low prev in
    let C := c_close prev in
    let PP := (H + L + C) / 3 in
    let BC := (H + L) / 2 in
    Some (mkCPR PP (PP - BC + PP) BC (2 * PP - L) (2 * PP - H)
                (PP + (H - L)) (PP - (H - L))).
Proof.
  unfold calculate_cpr_levels. rewrite iloc_neg2_app.
  replace (py_empty (front ++ [prev; cur])) with false
    by (destruct front; reflexivity).
  replace (py_len (front ++ [prev; cur]) <? 2)%Z with false; [reflexivity|].
  symmetry. apply Z.ltb_ge. unfold py_len.
  rewrite length_app. cbn [length]. lia.
Qed.

Lemma calculate_cpr_levels_short (df : list Candle) :
  (length df < 2)%nat -> calculate_cpr_levels df = None.
Proof.
  destruct df as [|c [|d df]]; cbn; intros; try reflexivity; lia.
Qed.

(** Levels exist only for a frame that ends in a closed day and the
    current day, and they are those of the closed day. *)
Lemma calculate_cpr_levels_inv (df : list Candle) (lv : CPR) :
  calculate_cpr_levels df = Some lv ->
  exists front prev cur,
    df = front ++ [prev; cur] /\
    nth_error df (length df - 2) = Some prev /\
    calculate_cpr_levels (front ++ [prev; cur]) = Some lv.
Proof.
  intros Hlv.
  destruct (le_lt_dec 2 (length df)) as [Hlen|Hlen].
  - destruct (two_last_rows df Hlen) as (front & prev & cur & ->).
    exists front, prev, cur. split; [reflexivity|]. split; [|exact Hlv].
    rewrite length_app. cbn [length]. rewrite nth_error_app2 by lia.
    replace (length front + 2 - 2 - length front)%nat with 0%nat by lia.
    reflexivity.
  - rewrite calculate_cpr_levels_short in Hlv by exact Hlen. discriminate.
Qed.

(** PP lies between the two edges of the band BC..TC. *)
Lemma band_around_pp (df : list Candle) (lv : CPR) :
  calculate_cpr_levels df = Some lv ->
  py_min (BC lv) (TC lv) <= PP lv /\ PP lv <= py_max (BC lv) (TC lv).
Proof.
  intros Hlv.
  destruct (calculate_cpr_levels_inv df lv Hlv) as (front & prev & cur & _ & _ & E).
  rewrite calculate_cpr_levels_app in E. cbn zeta in E. injection E as <-.
  cbn [PP TC BC].
  set (pp := (c_high prev + c_low prev + c_close prev) / 3).
  set (bc := (c_high prev + c_low prev) / 2).
  unfold py_min, py_max.
  destruct (pp - bc + pp <? bc) eqn:E1; destruct (pp - bc + pp >? bc) eqn:E2;
    to_order; split; lra.
Qed.

(** X1. Whenever levels are produced, the pivot lies inside the central
    band: the lower edge min(BC, TC) is never above PP and the upper
    edge max(BC, TC) never below it, whichever of BC and TC is the
    larger. *)
Theorem cpr_band_contains_pp (df : list Candle) (lv : CPR) :
  calculate_cpr_levels df = Some lv ->
  py_min (BC lv) (TC lv) <= PP lv /\ PP lv <= py_max (BC lv) (TC lv).
Proof. apply band_around_pp. Qed.

(** ** The frame of [fetch_data_safe] *)

(** From row 19 on every row has both averages and stays. *)
Lemma indicator_rows_full (closes : list Q) (ohlcv : list Candle) :
  forall i : nat,
    (19 <= i)%nat ->
    indicator_rows closes i ohlcv
    = map (fun kc =>
             mkBar (snd kc) (rolling 9%nat closes (fst kc))
                   (rolling 20%nat closes (fst kc)))
          (combine (seq i (length ohlcv)) ohlcv).
Proof.
  induction ohlcv as [|c rest IH]; intros i Hi; [reflexivity|].
  cbn [indicator_rows length seq combine map fst snd].
  rewrite (rolling_mean_defined 9), (rolling_mean_defined 20) by lia.
  rewrite IH by lia. reflexivity.
Qed.

Lemma with_indicators_rows (ohlcv : list Candle) :
  with_indicators ohlcv
  = map (fun kc =>
           mkBar (snd kc) (rolling 9%nat (map c_close ohlcv) (fst kc))
                 (rolling 20%nat (map c_close ohlcv) (fst kc)))
        (combine (seq 19 (length ohlcv - 19)) (skipn 19 ohlcv)).
Proof.
  unfold with_indicators.
  rewrite <- (firstn_skipn 19 ohlcv) at 2.
  rewrite indicator_rows_app.
  rewrite indicator_rows_short.
  - cbn [app Nat.add].
    destruct (le_lt_dec 19 (length ohlcv)) as [Hlen|Hlen].
    + rewrite length_firstn, Nat.min_l by exact Hlen.
      rewrite indicator_rows_full by lia.
      rewrite length_skipn. reflexivity.
    + rewrite skipn_all2 by lia.
      replace (length ohlcv - 19)%nat with 0%nat by lia. reflexivity.
  - rewrite length_firstn. lia.
Qed.

Lemma map_snd_combine_eq {A B : Type} (xs : list A) :
  forall ys : list B,
    length xs = length ys -> map snd (combine xs ys) = ys.
Proof.
  induction xs as [|x xs IH]; intros [|y ys] Hl; cbn in *;
    try reflexivity; try discriminate.
  rewrite IH by lia. reflexivity.
Qed.

Lemma nth_error_combine {A B : Type} (xs : list A) :
  forall (ys : list B) (k : nat) (x : A) (y : B),
    nth_error (combine xs ys) k = Some (x, y) ->
    nth_error xs k = Some x /\ nth_error ys k = Some y.
Proof.
  induction xs as [|a xs IH]; intros ys k x y E.
  - destruct k; discriminate.
  - destruct ys as [|b ys]; [destruct k; discriminate|].
    destruct k as [|k]; cbn in E |- *.
    + injection E as <- <-. auto.
    + apply IH. exact E.
Qed.

(** X3. The frame keeps exactly the candles from the 20th on, in order:
    a series of fewer than 20 candles gives the empty frame, one of
    n >= 20 candles gives n - 19 rows, and row k of the frame is candle
    19 + k of the series with the two averages pandas gives at that
    candle. *)
Theorem with_indicators_frame (ohlcv : list Candle) :
  map b_candle (with_indicators ohlcv) = skipn 19 ohlcv /\
  length (with_indicators ohlcv) = (length ohlcv - 19)%nat /\
  ((length ohlcv < 20)%nat -> with_indicators ohlcv = []) /\
  forall (k : nat) (row : Bar),
    nth_error (with_indicators ohlcv) k = Some row ->
    nth_error ohlcv (19 + k) = Some (b_candle row) /\
    b_sma9 row = rolling 9%nat (map c_close ohlcv) (19 + k)%nat /\
    b_sma20 row = rolling 20%nat (map c_close ohlcv) (19 + k)%nat.
Proof.
  rewrite with_indicators_rows.
  assert (Hl : length (seq 19 (length ohlcv - 19)) = length (skipn 19 ohlcv)).
  { rewrite length_seq, length_skipn. reflexivity. }
  split.
  { rewrite map_map. cbn [b_candle].
    apply (map_snd_combine_eq _ _ Hl). }
  split.
  { rewrite length_map, length_combine, Hl, Nat.min_id, length_skipn.
    reflexivity. }
  split.
  { intros Hlen. replace (length ohlcv - 19)%nat with 0%nat by lia.
    reflexivity. }
  intros k row Hk.
  rewrite nth_error_map in Hk.
  destruct (nth_error (combine _ _) k) as [[j c]|] eqn:E; [|discriminate].
  injection Hk as <-. cbn [b_candle b_sma9 b_sma20 fst snd].
  destruct (nth_error_combine _ _ _ _ _ E) as [Hj Hc].
  assert (Hjk : j = (19 + k)%nat).
  { assert (Hlt : (k < length (seq 19 (length ohlcv - 19)))%nat)
      by (apply nth_error_Some; congruence).
    rewrite length_seq in Hlt.
    rewrite nth_error_seq in Hj.
    destruct (Nat.ltb_spec k (length ohlcv - 19)); [|lia].
    injection Hj as <-. reflexivity. }
  subst j. split.
  - rewrite nth_error_skipn in Hc. exact Hc.
  - split; reflexivity.
Qed.

(** X4. [fetch_data_safe] asks the exchange at most three times: when
    attempts 0, 1 and 2 all raise it returns the empty frame, whatever a
    later attempt would answer; otherwise it returns the frame built
    on the first answer and does not look at the attempts after it. *)
Theorem fetch_data_safe_retries (exchange : Exchange) (sym timeframe : string) :
  ((forall k, (k < 3)%nat -> exchange sym timeframe k = None) ->
   fetch_data_safe exchange sym timeframe = []) /\
  (forall (k : nat) (ohlcv : list Candle),
      (k < 3)%nat ->
      (forall j, (j < k)%nat -> exchange sym timeframe j = None) ->
      exchange sym timeframe k = Some ohlcv ->
      fetch_data_safe exchange sym timeframe = with_indicators ohlcv).
Proof.
  unfold fetch_data_safe, max_retries. cbn [fetch_attempts]. split.
  - intros Hall. rewrite !Hall by lia. reflexivity.
  - intros k ohlcv Hk Hbefore Hans.
    destruct k as [|[|[|k]]]; try lia.
    + rewrite Hans. reflexivity.
    + rewrite (Hbefore 0%nat), Hans by lia. reflexivity.
    + rewrite (Hbefore 0%nat), (Hbefore 1%nat), Hans by lia. reflexivity.
Qed.

(** ** Every path of [generate_and_send_signal] *)

Lemma master_signal_values (trend_4h trend_1h : string) (price pp : Q) :
  (master_signal trend_4h trend_1h price pp = "STRONG BUY" \/
   master_signal trend_4h trend_1h price pp = "STRONG SELL" \/
   master_signal trend_4h trend_1h price pp = "WAIT (Neutral)")%string.
Proof.
  unfold master_signal.
  destruct (_ && _ && _); [auto|].
  destruct (_ && _ && _); auto.
Qed.

Lemma iloc_last_none {A : Type} (df : list A) :
  py_iloc df (-1) = None -> py_empty df = true.
Proof.
  destruct df as [|a df]; [reflexivity|]. intros H.
  destruct (last_row (a :: df)) as (front & x & E); [discriminate|].
  rewrite E, iloc_last_app in H. discriminate.
Qed.

(** Without the daily levels or one of the two frames nothing happens. *)
Lemma generate_skips (exchange : Exchange) (send_ok : bool) (now : Z)
  (sym : string) (s : Sys) :
  exchange sym "1d"%string 0%nat = None \/
  (exists d, exchange sym "1d"%string 0%nat = Some d /\
             calculate_cpr_levels d = None) \/
  py_empty (fetch_data_safe exchange sym TIMEFRAME_MAIN) = true \/
  py_empty (fetch_data_safe exchange sym TIMEFRAME_ENTRY) = true ->
  exec (generate_and_send_signal exchange send_ok now sym) s = s.
Proof.
  intros H. run_eff.
  destruct (exchange sym "1d"%string 0%nat) as [d|] eqn:Hd; [|reflexivity].
  destruct H as [H|[(d' & Hd' & Hc)|[H|H]]].
  - discriminate.
  - injection Hd' as <-. rewrite Hc.
    cbn [is_none]. rewrite !orb_true_r. reflexivity.
  - rewrite H. reflexivity.
  - rewrite H, orb_true_r. reflexivity.
Qed.

(** Either nothing happens, whatever the notification does, or all the
    inputs are there and the signal is directional. *)
Lemma generate_cases (exchange : Exchange) (now : Z) (sym : string) (s : Sys) :
  (forall send_ok,
      exec (generate_and_send_signal exchange send_ok now sym) s = s) \/
  exists ohlcv_d cpr last_4h last_1h,
    exchange sym "1d"%string 0%nat = Some ohlcv_d /\
    calculate_cpr_levels ohlcv_d = Some cpr /\
    py_iloc (fetch_data_safe exchange sym TIMEFRAME_MAIN) (-1) = Some last_4h /\
    py_iloc (fetch_data_safe exchange sym TIMEFRAME_ENTRY) (-1) = Some last_1h /\
    (master_signal (trend_of last_4h) (trend_of last_1h) (b_close last_4h)
                   (PP cpr) = "STRONG BUY"%string \/
     master_signal (trend_of last_4h) (trend_of last_1h) (b_close last_4h)
                   (PP cpr) = "STRONG SELL"%string).
Proof.
  destruct (exchange sym "1d"%string 0%nat) as [d|] eqn:Hd;
    [|left; intros ok; apply generate_skips; auto].
  destruct (calculate_cpr_levels d) as [cpr|] eqn:Hc;
    [|left; intros ok; apply generate_skips; right; left; eauto].
  destruct (py_iloc (fetch_data_safe exchange sym TIMEFRAME_MAIN) (-1))
    as [l4|] eqn:H4;
    [|left; intros ok; apply generate_skips; right; right; left;
      apply iloc_last_none, H4].
  destruct (py_iloc (fetch_data_safe exchange sym TIMEFRAME_ENTRY) (-1))
    as [l1|] eqn:H1;
    [|left; intros ok; apply generate_skips; right; right; right;
      apply iloc_last_none, H1].
  destruct (master_signal_values (trend_of l4) (trend_of l1) (b_close l4)
              (PP cpr)) as [Hs|[Hs|Hs]].
  - right. exists d, cpr, l4, l1. auto 6.
  - right. exists d, cpr, l4, l1. auto 6.
  - left. intros ok.
    apply (run_generate_wait exchange ok now sym d cpr l4 l1 Hd Hc H4 H1 s Hs).
Qed.

(** What a directional run leaves, in one statement for both sides. *)
Lemma generate_appends (exchange : Exchange) (send_ok : bool) (now : Z)
  (sym : string) (s : Sys) :
  exec (generate_and_send_signal exchange send_ok now sym) s = s \/
  exists (cpr : CPR) (price : Q) (is_buy : bool),
    let t := mkTrade (py_len (trade_history s) + 1) sym
                     (if is_buy then "STRONG BUY" else "STRONG SELL")
                     price
                     (if is_buy then R1 cpr else S1 cpr)
                     (if is_buy then R2 cpr else S2 cpr)
                     (if is_buy then py_min (BC cpr) (TC cpr)
                      else py_max (BC cpr) (TC cpr))
                     now "ACTIVE" None 0 in
    (exists ohlcv_d, exchange sym "1d"%string 0%nat = Some ohlcv_d /\
                     calculate_cpr_levels ohlcv_d = Some cpr) /\
    (if is_buy then PP cpr < price else price < PP cpr) /\
    trade_history (exec (generate_and_send_signal exchange send_ok now sym) s)
    = trade_history s ++ [t] /\
    writes (exec (generate_and_send_signal exchange send_ok now sym) s)
    = writes s ++ [trade_history s ++ [t]] /\
    (send_ok = false ->
     sent (exec (generate_and_send_signal exchange send_ok now sym) s) = sent s /\
     bot_stats (exec (generate_and_send_signal exchange send_ok now sym) s)
     = bot_stats s) /\
    (send_ok = true ->
     (exists msg,
         sent (exec (generate_and_send_signal exchange send_ok now sym) s)
         = sent s ++ [msg]) /\
     bot_stats (exec (generate_and_send_signal exchange send_ok now sym) s)
     = mkStats "operational" (total_analyses (bot_stats s) + 1) (Some now)).
Proof.
  destruct (generate_cases exchange now sym s)
    as [Hskip|(d & cpr & l4 & l1 & Hd & Hc & H4 & H1 & Hsig)];
    [left; apply Hskip|].
  right.
  pose proof (master_signal_cases (trend_of l4) (trend_of l1) (b_close l4)
                (PP cpr)) as Hcases.
  cbn zeta in Hcases. destruct Hcases as (Hbuy & Hsell & _).
  destruct Hsig as [Hs|Hs].
  - exists cpr, (b_close l4), true. cbn zeta.
    rewrite (run_generate_buy exchange send_ok now sym d cpr l4 l1
               Hd Hc H4 H1 s Hs). cbn zeta.
    split; [eauto|]. split; [apply Hbuy, Hs|].
    destruct send_ok; cbn; repeat split; eauto; discriminate.
  - exists cpr, (b_close l4), false. cbn zeta.
    rewrite (run_generate_sell exchange send_ok now sym d cpr l4 l1
               Hd Hc H4 H1 s Hs). cbn zeta.
    split; [eauto|]. split; [apply Hsell, Hs|].
    destruct send_ok; cbn; repeat split; eauto; discriminate.
Qed.

Lemma app_tail_neq {A : Type} (l : list A) (x : A) : l <> l ++ [x].
Proof.
  intros E. apply (f_equal (@length A)) in E.
  rewrite length_app in E. cbn in E. lia.
Qed.

(** X5. [generate_and_send_signal] needs all its inputs: when the daily
    fetch raises, or the daily frame has fewer than two candles, or the
    4h or the 1h frame is empty, it creates no trade, sends nothing,
    writes nothing and leaves the counters alone. *)
Theorem generate_needs_inputs (exchange : Exchange) (send_ok : bool) (now : Z)
  (sym : string) (s : Sys) :
  exchange sym "1d"%string 0%nat = None \/
  (exists d, exchange sym "1d"%string 0%nat = Some d /\ (length d < 2)%nat) \/
  fetch_data_safe exchange sym TIMEFRAME_MAIN = [] \/
  fetch_data_safe exchange sym TIMEFRAME_ENTRY = [] ->
  exec (generate_and_send_signal exchange send_ok now sym) s = s.
Proof.
  intros [H|[(d & Hd & Hlen)|[H|H]]]; apply generate_skips.
  - left. exact H.
  - right. left. exists d. split; [exact Hd|].
    apply calculate_cpr_levels_short, Hlen.
  - right. right. left. rewrite H. reflexivity.
  - right. right. right. rewrite H. reflexivity.
Qed.

(** X6. A trade that [generate_and_send_signal] appends has its stop on
    the adverse side of its entry: sl < entry for a STRONG BUY and
    entry < sl for a STRONG SELL; so a monitoring sample equal to the
    entry price can only resolve it as a WIN, never as a LOSS. *)
Theorem generate_stop_side (exchange : Exchange) (send_ok : bool) (now : Z)
  (sym : string) (s : Sys) (t : Trade) :
  trade_history (exec (generate_and_send_signal exchange send_ok now sym) s)
  = trade_history s ++ [t] ->
  (signal t = "STRONG BUY"%string /\ sl t < entry t \/
   signal t = "STRONG SELL"%string /\ entry t < sl t) /\
  forall st oc,
    crossed (py_contains "BUY" (signal t)) (entry t) t = Some (st, oc) ->
    oc = "WIN"%string.
Proof.
  intros Happ.
  destruct (generate_appends exchange send_ok now sym s)
    as [Hskip|(cpr & price & is_buy & H)].
  { rewrite Hskip in Happ. apply app_tail_neq in Happ. contradiction. }
  cbn zeta in H. destruct H as ((d & _ & Hc) & Hside & Hh & _).
  rewrite Hh in Happ. apply app_inj_tail in Happ. destruct Happ as [_ <-].
  destruct (band_around_pp d cpr Hc) as (Hmin & Hmax).
  destruct is_buy; cbn [signal sl entry tp1 tp2].
  - assert (Hsl : py_min (BC cpr) (TC cpr) < price) by lra.
    split; [left; auto|].
    change (py_contains "BUY" "STRONG BUY") with true.
    intros st oc. unfold crossed. cbn [tp1 tp2 sl].
    destruct (price >=? R2 cpr); [intros E; inversion E; reflexivity|].
    destruct (price >=? R1 cpr); [intros E; inversion E; reflexivity|].
    destruct (price <=? py_min (BC cpr) (TC cpr)) eqn:E0; [|discriminate].
    to_order. lra.
  - assert (Hsl : price < py_max (BC cpr) (TC cpr)) by lra.
    split; [right; auto|].
    change (py_contains "BUY" "STRONG SELL") with false.
    intros st oc. unfold crossed. cbn [tp1 tp2 sl].
    destruct (price <=? S2 cpr); [intros E; inversion E; reflexivity|].
    destruct (price <=? S1 cpr); [intros E; inversion E; reflexivity|].
    destruct (price >=? py_max (BC cpr) (TC cpr)) eqn:E0; [|discriminate].
    to_order. lra.
Qed.

(** X7. The trade does not depend on the notification: with the send
    raising or returning, [generate_and_send_signal] leaves the same
    ledger and the same file; a raising send only costs the message and
    the update of the counters. *)
Theorem generate_send_independent (exchange : Exchange) (now : Z)
  (sym : string) (s : Sys) :
  let lost := exec (generate_and_send_signal exchange false now sym) s in
  let kept := exec (generate_and_send_signal exchange true now sym) s in
  trade_history lost = trade_history kept /\
  writes lost = writes kept /\
  sent lost = sent s /\ bot_stats lost = bot_stats s.
Proof.
  cbn zeta.
  destruct (generate_cases exchange now sym s)
    as [Hskip|(d & cpr & l4 & l1 & Hd & Hc & H4 & H1 & [Hs|Hs])].
  - rewrite !Hskip. auto.
  - rewrite !(run_generate_buy exchange _ now sym d cpr l4 l1
                Hd Hc H4 H1 s Hs). cbn. auto.
  - rewrite !(run_generate_sell exchange _ now sym d cpr l4 l1
                Hd Hc H4 H1 s Hs). cbn. auto.
Qed.

(** X8. On every path [generate_and_send_signal] either changes nothing
    at all or appends exactly one trade, leaving the earlier trades in
    place: the new trade has the next id, the symbol asked for, the
    instant of the call, a STRONG BUY or STRONG SELL signal, status
    ACTIVE, no outcome and pnl_percent 0. *)
Theorem generate_appends_one (exchange : Exchange) (send_ok : bool) (now : Z)
  (sym : string) (s : Sys) :
  let s' := exec (generate_and_send_signal exchange send_ok now sym) s in
  s' = s \/
  exists t,
    trade_history s' = trade_history s ++ [t] /\
    id t = (py_len (trade_history s) + 1)%Z /\
    symbol t = sym /\ timestamp t = now /\
    (signal t = "STRONG BUY" \/ signal t = "STRONG SELL")%string /\
    status t = "ACTIVE"%string /\ outcome t = None /\ pnl_percent t = 0.
Proof.
  cbn zeta.
  destruct (generate_appends exchange send_ok now sym s)
    as [Hskip|(cpr & price & is_buy & H)]; [left; exact Hskip|].
  right. cbn zeta in H. destruct H as (_ & _ & Hh & _).
  eexists. split; [exact Hh|].
  destruct is_buy; cbn; repeat split; auto.
Qed.

(** X9. The counters follow the deliveries, not the analyses: after
    [generate_and_send_signal] either the outbox and the counters are
    untouched, or one signal message was delivered and total_analyses
    is one more, last_analysis is the instant of the call and the
    status is operational. *)
Theorem generate_counts_deliveries (exchange : Exchange) (send_ok : bool)
  (now : Z) (sym : string) (s : Sys) :
  let s' := exec (generate_and_send_signal exchange send_ok now sym) s in
  sent s' = sent s /\ bot_stats s' = bot_stats s \/
  send_ok = true /\
  (exists msg, sent s' = sent s ++ [msg]) /\
  total_analyses (bot_stats s') = (total_analyses (bot_stats s) + 1)%Z /\
  last_analysis (bot_stats s') = Some now /\
  bot_status (bot_stats s') = "operational"%string.
Proof.
  cbn zeta.
  destruct (generate_appends exchange send_ok now sym s)
    as [Hskip|(cpr & price & is_buy & H)].
  { left. rewrite Hskip. auto. }
  cbn zeta in H. destruct H as (_ & _ & _ & _ & Hlost & Hkept).
  destruct send_ok.
  - right. destruct (Hkept eq_refl) as [Hmsg Hst].
    rewrite Hst. cbn. auto.
  - left. apply Hlost. reflexivity.
Qed.

(** ** Ledger invariants *)

(** Every trade of the ledger after a pass is the image of the trade at
    the same position before it. *)
Lemma check_trades_nth_inv (market : nat -> Exchange) (telegram : nat -> bool)
  (s : Sys) (i : nat) (t' : Trade) :
  nth_error (trade_history (exec (check_trades market telegram) s)) i = Some t' ->
  exists t u0 s0,
    nth_error (trade_history s) i = Some t /\
    t' = trade (check_one (market i) (telegram i) (mkMon t u0 s0)).
Proof.
  intros Hi.
  assert (Hlt : (i < length (trade_history s))%nat).
  { rewrite <- (check_loop_length market telegram (trade_history s) 0 false s).
    rewrite <- check_trades_history. apply nth_error_Some. congruence. }
  destruct (nth_error (trade_history s) i) as [t|] eqn:E.
  - destruct (check_trades_nth market telegram s i t E) as (u0 & s0 & Hn).
    exists t, u0, s0. split; [reflexivity|]. congruence.
  - apply nth_error_None in E. lia.
Qed.

(** One iteration keeps status and outcome in agreement. *)
Lemma check_one_coherent (ex : Exchange) (ok : bool) (t : Trade) (u : bool)
  (s : Sys) :
  coherent t -> coherent (trade (check_one ex ok (mkMon t u s))).
Proof.
  intros Hco.
  destruct (String.eqb_spec (status t) "ACTIVE") as [Hact|Hne].
  - rewrite (run_check_one _ _ _ _ _ Hact).
    destruct (py_iloc _ _) as [last|]; cbn zeta; [|exact Hco].
    destruct (crossed _ _ _) as [[st oc]|] eqn:Hc; [|exact Hco].
    assert (Hres : coherent (set_status st (set_outcome (Some oc) t))).
    { unfold coherent. cbn.
      destruct (crossed_values _ _ _ _ _ Hc) as [[-> ->]|[[-> ->]|[-> ->]]];
        auto 6. }
    assert (Hpnl : forall pnl,
               coherent (set_pnl_percent pnl
                           (set_status st (set_outcome (Some oc) t)))).
    { intros pnl. exact Hres. }
    destruct (py_div _ _) as [q|]; [destruct ok|]; cbn [trade];
      first [apply Hpnl | exact Hres].
  - rewrite check_one_inactive by exact Hne. exact Hco.
Qed.

(** X10. Ids stay sequential: if the trade at every position i of the
    ledger has id i + 1, the same holds after
    [generate_and_send_signal] and after [check_trades]; ids are then
    pairwise distinct. *)
Theorem sequential_ids_kept (s : Sys) :
  sequential_ids (trade_history s) ->
  (forall exchange send_ok now sym,
      sequential_ids
        (trade_history
           (exec (generate_and_send_signal exchange send_ok now sym) s))) /\
  (forall market telegram,
      sequential_ids (trade_history (exec (check_trades market telegram) s))) /\
  (forall i j ti tj,
      nth_error (trade_history s) i = Some ti ->
      nth_error (trade_history s) j = Some tj ->
      id ti = id tj -> i = j).
Proof.
  intros Hseq. split; [|split].
  - intros exchange send_ok now sym.
    destruct (generate_appends exchange send_ok now sym s)
      as [Hskip|(cpr & price & is_buy & H)]; [rewrite Hskip; exact Hseq|].
    cbn zeta in H. destruct H as (_ & _ & Hh & _). rewrite Hh.
    intros i t Hi.
    destruct (Nat.lt_ge_cases i (length (trade_history s))) as [Hlt|Hge].
    + rewrite nth_error_app1 in Hi by exact Hlt. apply Hseq, Hi.
    + rewrite nth_error_app2 in Hi by exact Hge.
      destruct (i - length (trade_history s))%nat as [|k] eqn:Ek.
      * cbn in Hi. injection Hi as <-. cbn [id]. unfold py_len. lia.
      * destruct k; discriminate.
  - intros market telegram i t' Hi.
    destruct (check_trades_nth_inv market telegram s i t' Hi)
      as (t & u0 & s0 & Ht & ->).
    pose proof (check_one_frame (market i) (telegram i) t u0 s0) as Hf.
    cbn zeta in Hf. destruct Hf as (Hid & _).
    rewrite Hid. apply Hseq, Ht.
  - intros i j ti tj Hi Hj E.
    apply Hseq in Hi. apply Hseq in Hj. lia.
Qed.

(** X11. Status and outcome stay in agreement: if every trade of the
    ledger is ACTIVE without outcome, or TP1_HIT/TP2_HIT with outcome
    WIN, or SL_HIT with outcome LOSS, the same holds after
    [generate_and_send_signal] and after [check_trades], on every path,
    an aborted iteration included; the wins counted on the status page
    are then exactly the TP1 and TP2 hits. *)
Theorem coherent_kept (s : Sys) :
  (forall t, In t (trade_history s) -> coherent t) ->
  (forall exchange send_ok now sym t,
      In t (trade_history
              (exec (generate_and_send_signal exchange send_ok now sym) s)) ->
      coherent t) /\
  (forall market telegram t,
      In t (trade_history (exec (check_trades market telegram) s)) ->
      coherent t) /\
  (forall t, In t (trade_history s) ->
             (has_outcome "WIN" t = true <->
              status t = "TP1_HIT"%string \/ status t = "TP2_HIT"%string) /\
             (has_outcome "LOSS" t = true <-> status t = "SL_HIT"%string)).
Proof.
  intros Hall. split; [|split].
  - intros exchange send_ok now sym t Hin.
    destruct (generate_appends exchange send_ok now sym s)
      as [Hskip|(cpr & price & is_buy & H)].
    + rewrite Hskip in Hin. apply Hall, Hin.
    + cbn zeta in H. destruct H as (_ & _ & Hh & _). rewrite Hh in Hin.
      apply in_app_or in Hin. destruct Hin as [Hin|[<-|[]]].
      * apply Hall, Hin.
      * left. cbn. auto.
  - intros market telegram t' Hin.
    apply In_nth_error in Hin. destruct Hin as (i & Hi).
    destruct (check_trades_nth_inv market telegram s i t' Hi)
      as (t & u0 & s0 & Ht & ->).
    apply check_one_coherent, Hall.
    apply nth_error_In with i. exact Ht.
  - intros t Hin. rewrite !has_outcome_iff.
    destruct (Hall t Hin) as [[Hs Ho]|[[Hs Ho]|[Hs Ho]]]; rewrite Ho;
      intuition congruence.
Qed.

(** ** Repeated passes and outages *)

Lemma check_one_still_active (ex : Exchange) (ok : bool) (t : Trade) (u : bool)
  (s : Sys) :
  status (trade (check_one ex ok (mkMon t u s))) = "ACTIVE"%string ->
  trade (check_one ex ok (mkMon t u s)) = t.
Proof.
  destruct (String.eqb_spec (status t) "ACTIVE") as [Hact|Hne].
  - rewrite (run_check_one _ _ _ _ _ Hact).
    destruct (py_iloc _ _) as [last|]; cbn zeta; [|reflexivity].
    destruct (crossed _ _ _) as [[st oc]|] eqn:Hc; [|reflexivity].
    apply crossed_not_active in Hc.
    destruct (py_div _ _); [destruct ok|]; cbn; intros E; contradiction.
  - rewrite check_one_inactive by exact Hne. reflexivity.
Qed.

(** X12. Over any sequence of monitoring passes, whatever the exchange
    and the bot do in each, a trade is written at most once: a trade
    that is not ACTIVE is found unchanged at its position after all the
    passes, and a trade that is still ACTIVE after them is the trade
    that was there before the first one. *)
Theorem run_passes_final (worlds : list ((nat -> Exchange) * (nat -> bool))) :
  forall (s : Sys) (i : nat),
    length (trade_history (run_passes worlds s)) = length (trade_history s) /\
    (forall t, nth_error (trade_history s) i = Some t ->
               status t <> "ACTIVE"%string ->
               nth_error (trade_history (run_passes worlds s)) i = Some t) /\
    (forall t', nth_error (trade_history (run_passes worlds s)) i = Some t' ->
                status t' = "ACTIVE"%string ->
                nth_error (trade_history s) i = Some t').
Proof.
  induction worlds as [|[market telegram] rest IH]; intros s i.
  - cbn. auto.
  - cbn [run_passes fold_left fst snd].
    fold (run_passes rest (exec (check_trades market telegram) s)).
    destruct (IH (exec (check_trades market telegram) s) i) as (Hlen & Hfin & Hact).
    split; [|split].
    + rewrite Hlen, check_trades_history. apply check_loop_length.
    + intros t Hi Hne. apply Hfin; [|exact Hne].
      destruct (check_trades_nth market telegram s i t Hi) as (u0 & s0 & Hn).
      rewrite Hn, check_one_inactive by exact Hne. reflexivity.
    + intros t' Hi Hst. specialize (Hact t' Hi Hst).
      destruct (check_trades_nth_inv market telegram s i t' Hact)
        as (t & u0 & s0 & Ht & E).
      rewrite Ht. f_equal. rewrite E. symmetry.
      apply check_one_still_active. rewrite <- E. exact Hst.
Qed.

Lemma check_loop_outage (market : nat -> Exchange) (telegram : nat -> bool)
  (trades : list Trade) :
  forall (i : nat) (u : bool) (s : Sys),
    (forall k t, nth_error trades k = Some t -> status t = "ACTIVE"%string ->
                 fetch_data_safe (market (i + k)%nat) (symbol t) TIMEFRAME_ENTRY
                 = []) ->
    check_loop market telegram i trades u s = (trades, u, s).
Proof.
  induction trades as [|a rest IH]; intros i u s Hout; [reflexivity|].
  cbn [check_loop].
  assert (Hone : check_one (market i) (telegram i) (mkMon a u s) = mkMon a u s).
  { destruct (String.eqb_spec (status a) "ACTIVE") as [Hact|Hne].
    - rewrite (run_check_one _ _ _ _ _ Hact).
      specialize (Hout 0%nat a eq_refl Hact). rewrite Nat.add_0_r in Hout.
      rewrite Hout. reflexivity.
    - apply check_one_inactive. exact Hne. }
  rewrite Hone. cbn [trade updated sys].
  rewrite IH; [reflexivity|].
  intros k t Hk Hact. specialize (Hout (S k) t Hk Hact).
  rewrite Nat.add_succ_r in Hout. exact Hout.
Qed.

(** X13. An outage changes nothing: when the frame fetched for every
    ACTIVE trade is empty (the exchange raised three times, or gave
    fewer than 20 candles), [check_trades] leaves the ledger, the
    outbox, the file and the counters exactly as they were. *)
Theorem check_trades_outage (market : nat -> Exchange) (telegram : nat -> bool)
  (s : Sys) :
  (forall i t, nth_error (trade_history s) i = Some t ->
               status t = "ACTIVE"%string ->
               fetch_data_safe (market i) (symbol t) TIMEFRAME_ENTRY = []) ->
  exec (check_trades market telegram) s = s.
Proof.
  intros Hout. rewrite run_check_trades.
  rewrite (check_loop_outage market telegram (trade_history s) 0 false s Hout).
  cbn. destruct s; reflexivity.
Qed.

(** ** Notifications of a pass *)

(** One iteration sends nothing, or the update of the trade it just
    moved out of ACTIVE. *)
Lemma check_one_message (ex : Exchange) (ok : bool) (t : Trade) (u : bool)
  (s : Sys) :
  let m := check_one ex ok (mkMon t u s) in
  sent (sys m) = sent s \/
  ok = true /\ status t = "ACTIVE"%string /\
  status (trade m) <> "ACTIVE"%string /\
  sent (sys m)
  = sent s ++ [UpdateMsg (symbol t) (status (trade m)) (outcome (trade m))].
Proof.
  destruct (String.eqb_spec (status t) "ACTIVE") as [Hact|Hne].
  - rewrite (run_check_one _ _ _ _ _ Hact).
    destruct (py_iloc _ _) as [last|]; cbn zeta; [|left; reflexivity].
    destruct (crossed _ _ _) as [[st oc]|] eqn:Hc; [|left; reflexivity].
    apply crossed_not_active in Hc.
    destruct (py_div _ _); [destruct ok|]; cbn; auto.
  - rewrite check_one_inactive by exact Hne. left. reflexivity.
Qed.

Lemma check_loop_messages (market : nat -> Exchange) (telegram : nat -> bool)
  (trades : list Trade) :
  forall (i : nat) (u : bool) (s : Sys),
    let r := check_loop market telegram i trades u s in
    exists msgs,
      sent (snd r) = sent s ++ msgs /\
      (length msgs
       <= length (filter (fun t => (status t =? "ACTIVE")%string) trades))%nat /\
      forall msg, In msg msgs ->
        exists k t t',
          nth_error trades k = Some t /\
          nth_error (fst (fst r)) k = Some t' /\
          status t = "ACTIVE"%string /\ status t' <> "ACTIVE"%string /\
          telegram (i + k)%nat = true /\
          msg = UpdateMsg (symbol t) (status t') (outcome t').
Proof.
  induction trades as [|a rest IH]; intros i u s.
  - cbn. exists []. rewrite app_nil_r. split; [reflexivity|].
    split; [cbn; lia|]. intros msg [].
  - cbn [check_loop].
    pose proof (check_one_message (market i) (telegram i) a u s) as Hone.
    cbn zeta in Hone.
    set (m := check_one (market i) (telegram i) (mkMon a u s)) in *.
    specialize (IH (S i) (updated m) (sys m)). cbn zeta in IH.
    destruct (check_loop market telegram (S i) rest _ _) as [[rest' u'] s'].
    cbn [fst snd] in *.
    destruct IH as (msgs & Hs & Hlen & Hall).
    assert (Hrest : forall msg, In msg msgs ->
              exists k t t',
                nth_error (a :: rest) k = Some t /\
                nth_error (trade m :: rest') k = Some t' /\
                status t = "ACTIVE"%string /\ status t' <> "ACTIVE"%string /\
                telegram (i + k)%nat = true /\
                msg = UpdateMsg (symbol t) (status t') (outcome t')).
    { intros msg Hin.
      destruct (Hall msg Hin) as (k & t & t' & H1 & H2 & H3 & H4 & H5 & H6).
      exists (S k), t, t'. rewrite Nat.add_succ_r. cbn. auto 6. }
    destruct Hone as [Hsame|(Hok & Hact & Hne & Hmsg)].
    + exists msgs. rewrite Hs, Hsame. split; [reflexivity|].
      split; [|exact Hrest].
      cbn [filter]. destruct (status a =? "ACTIVE")%string; cbn; lia.
    + exists (UpdateMsg (symbol a) (status (trade m)) (outcome (trade m)) :: msgs).
      rewrite Hs, Hmsg, <- app_assoc. split; [reflexivity|].
      split.
      * cbn [filter]. rewrite Hact. cbn. lia.
      * intros msg [<-|Hin]; [|apply Hrest, Hin].
        exists 0%nat, a, (trade m). rewrite Nat.add_0_r. cbn. auto 6.
Qed.

(** X14. A pass only adds to the outbox, at most one message per ACTIVE
    trade, and every message it adds is the update of a trade that left
    ACTIVE in this pass, with that trade's symbol, new status and
    outcome; no signal or report message comes from a pass. *)
Theorem check_trades_messages (market : nat -> Exchange)
  (telegram : nat -> bool) (s : Sys) :
  let s' := exec (check_trades market telegram) s in
  exists msgs,
    sent s' = sent s ++ msgs /\
    (length msgs
     <= length (filter (fun t => (status t =? "ACTIVE")%string)
                       (trade_history s)))%nat /\
    forall msg, In msg msgs ->
      exists i t t',
        nth_error (trade_history s) i = Some t /\
        nth_error (trade_history s') i = Some t' /\
        status t = "ACTIVE"%string /\ status t' <> "ACTIVE"%string /\
        telegram i = true /\
        msg = UpdateMsg (symbol t) (status t') (outcome t').
Proof.
  cbn zeta. rewrite check_trades_history.
  destruct (check_loop_messages market telegram (trade_history s) 0 false s)
    as (msgs & Hs & Hlen & Hall).
  exists msgs. split; [|split; [exact Hlen | exact Hall]].
  rewrite run_check_trades. cbn zeta.
  destruct (snd (fst _)); exact Hs.
Qed.

(** ** Outcome and realized percentage *)

Lemma pnl_negative_buy (entry price : Q) :
  0 < entry -> price < entry -> (price - entry) / entry * 100 < 0.
Proof.
  intros He Hp.
  assert (H : (price - entry) / entry < 0).
  { apply Qlt_shift_div_r; [exact He | lra]. }
  lra.
Qed.

Lemma pnl_negative_sell (entry price : Q) :
  0 < entry -> entry < price -> - ((price - entry) / entry * 100) < 0.
Proof.
  intros He Hp.
  assert (H : 0 < (price - entry) / entry).
  { apply Qlt_shift_div_l; [exact He | lra]. }
  lra.
Qed.

(** X15. For an ACTIVE trade without outcome whose entry is positive
    and whose levels lie on their sides of it (BUY: sl < entry < tp1 and
    entry < tp2; otherwise tp1 < entry < sl and tp2 < entry), the sign
    of the stored pnl_percent agrees with the outcome after a pass:
    positive on a WIN, negative on a LOSS. *)
Theorem outcome_matches_pnl (market : nat -> Exchange) (telegram : nat -> bool)
  (s : Sys) (i : nat) (t : Trade) (last : Bar) :
  nth_error (trade_history s) i = Some t ->
  status t = "ACTIVE"%string -> outcome t = None ->
  py_iloc (fetch_data_safe (market i) (symbol t) TIMEFRAME_ENTRY) (-1)
  = Some last ->
  0 < entry t ->
  (py_contains "BUY" (signal t) = true ->
   sl t < entry t /\ entry t < tp1 t /\ entry t < tp2 t) ->
  (py_contains "BUY" (signal t) = false ->
   entry t < sl t /\ tp1 t < entry t /\ tp2 t < entry t) ->
  exists t',
    nth_error (trade_history (exec (check_trades market telegram) s)) i
    = Some t' /\
    (outcome t' = Some "WIN"%string -> 0 < pnl_percent t') /\
    (outcome t' = Some "LOSS"%string -> pnl_percent t' < 0).
Proof.
  intros Hi Hact Hnone Hlast Hentry Hbuy Hsell.
  destruct (check_trades_nth market telegram s i t Hi) as (u0 & s0 & Hn).
  eexists. split; [exact Hn|].
  rewrite (run_check_one _ _ _ _ _ Hact), Hlast. cbn zeta.
  assert (Hnz : ~ entry t == 0) by lra.
  rewrite (py_div_some _ _ Hnz).
  set (price := b_close last).
  unfold crossed.
  destruct (py_contains "BUY" (signal t)).
  - destruct (Hbuy eq_refl) as (H0 & H1 & H2).
    destruct (price >=? tp2 t) eqn:E2;
      [|destruct (price >=? tp1 t) eqn:E1;
        [|destruct (price <=? sl t) eqn:E0]];
      to_order; destruct (telegram i); cbn [trade pnl_percent outcome
        set_pnl_percent set_status set_outcome negb];
      split; intros Ho; try discriminate; try congruence;
      first [apply pnl_positive_buy; lra | apply pnl_negative_buy; lra].
  - destruct (Hsell eq_refl) as (H0 & H1 & H2).
    destruct (price <=? tp2 t) eqn:E2;
      [|destruct (price <=? tp1 t) eqn:E1;
        [|destruct (price >=? sl t) eqn:E0]];
      to_order; destruct (telegram i); cbn [trade pnl_percent outcome
        set_pnl_percent set_status set_outcome negb];
      split; intros Ho; try discriminate; try congruence;
      first [apply pnl_positive_sell; lra | apply pnl_negative_sell; lra].
Qed.

(** ** Counts of the report and of the status page *)

Lemma outcome_counts (history : list Trade) :
  (length (filter (has_outcome "WIN") history)
   + length (filter (has_outcome "LOSS") history)
   <= length history)%nat.
Proof.
  induction history as [|t rest IH]; [cbn; lia|].
  cbn [filter].
  assert (Hex : has_outcome "WIN" t = true -> has_outcome "LOSS" t = false).
  { rewrite has_outcome_iff. intros Hw.
    destruct (has_outcome "LOSS" t) eqn:E; [|reflexivity].
    apply has_outcome_iff in E. congruence. }
  destruct (has_outcome "WIN" t) eqn:Ew.
  - rewrite (Hex eq_refl). cbn [length]. lia.
  - destruct (has_outcome "LOSS" t); cbn [length]; lia.
Qed.

Lemma ratio_bounds (w l : Z) :
  (0 <= w)%Z -> (0 <= l)%Z -> (0 < w + l)%Z ->
  0 <= inject_Z w / inject_Z (w + l) * 100 /\
  inject_Z w / inject_Z (w + l) * 100 <= 100.
Proof.
  intros Hw Hl Hpos.
  assert (Ha : 0 <= inject_Z w) by (unfold Qle; cbn; lia).
  assert (Hb : 0 < inject_Z (w + l)) by (unfold Qlt; cbn; lia).
  assert (Hab : inject_Z w <= inject_Z (w + l)) by (unfold Qle; cbn; lia).
  assert (H0 : 0 <= inject_Z w / inject_Z (w + l)).
  { apply Qle_shift_div_l; [exact Hb | lra]. }
  assert (H1 : inject_Z w / inject_Z (w + l) <= 1).
  { apply Qle_shift_div_r; [exact Hb | lra]. }
  split; lra.
Qed.

(** X16. The figures of the status page are consistent for every
    ledger: wins and losses are never negative, together they never
    exceed the number of trades, and the win rate lies between 0 and
    100; it is 0 when there is no win and 100 when there are wins and
    no loss. *)
Theorem home_bounds (s : Sys) :
  exists (total wins losses : Z) (wr : Q),
    home s = Some (total, wins, losses, wr) /\
    (0 <= wins)%Z /\ (0 <= losses)%Z /\ (wins + losses <= total)%Z /\
    0 <= wr /\ wr <= 100 /\
    (wins = 0%Z -> wr == 0) /\
    ((0 < wins)%Z -> losses = 0%Z -> wr == 100).
Proof.
  unfold home.
  set (wins := py_len (filter (has_outcome "WIN") (trade_history s))).
  set (losses := py_len (filter (has_outcome "LOSS") (trade_history s))).
  assert (Hw : (0 <= wins)%Z) by apply Nat2Z.is_nonneg.
  assert (Hl : (0 <= losses)%Z) by apply Nat2Z.is_nonneg.
  assert (Hsum : (wins + losses <= py_len (trade_history s))%Z).
  { unfold wins, losses, py_len.
    pose proof (outcome_counts (trade_history s)). lia. }
  destruct (wins + losses >? 0)%Z eqn:E.
  - apply Z.gtb_lt in E.
    assert (Hnz : ~ inject_Z (wins + losses) == 0).
    { intros H. unfold Qeq in H. cbn in H. lia. }
    rewrite (py_div_some _ _ Hnz).
    destruct (ratio_bounds wins losses Hw Hl E) as [H0 H1].
    do 4 eexists. split; [reflexivity|].
    repeat (split; [assumption|]). split.
    + intros ->. field. exact Hnz.
    + intros Hpos ->. rewrite Z.add_0_r. field.
      intros H. unfold Qeq in H. cbn in H. lia.
  - do 3 eexists. exists 0. split; [reflexivity|].
    repeat (split; [assumption|]).
    assert (E' : (wins + losses <= 0)%Z).
    { destruct (Z.gtb_spec (wins + losses) 0); [discriminate | assumption]. }
    split; [lra|]. split; [lra|]. split; [reflexivity|].
    intros Hpos. lia.
Qed.

(** X17. The report depends on the trades inside the window only, and
    its figures are consistent: a summary counts at least one signal
    and no more than the ledger holds, wins and losses are never
    negative and together never exceed the signals; "no trades" is
    reported exactly when every trade is older than 24 hours. *)
Theorem report_of_bounds (now : Z) (history : list Trade) :
  report_of now history
  = report_of now (filter (fun t => (timestamp t >=? now - hours_24)%Z) history)
  /\
  (report_of now history = NoTrades <->
   forall t, In t history -> (timestamp t < now - hours_24)%Z) /\
  (forall signals wins losses net_pct,
      report_of now history = Summary signals wins losses net_pct ->
      (1 <= signals <= py_len history)%Z /\
      (0 <= wins)%Z /\ (0 <= losses)%Z /\ (wins + losses <= signals)%Z).
Proof.
  unfold report_of.
  set (inside := fun t : Trade => (timestamp t >=? now - hours_24)%Z).
  assert (Hidem : filter inside (filter inside history) = filter inside history).
  { induction history as [|t rest IH]; [reflexivity|].
    cbn [filter]. destruct (inside t) eqn:E; [|exact IH].
    cbn [filter]. rewrite E, IH. reflexivity. }
  split; [rewrite Hidem; reflexivity|].
  split.
  - split.
    + intros Hrep t Hin.
      destruct (filter inside history) as [|a l] eqn:E; [|discriminate].
      destruct (inside t) eqn:Et.
      * assert (Hf : In t (filter inside history))
          by (apply filter_In; auto).
        rewrite E in Hf. contradiction.
      * unfold inside in Et.
        destruct (Z.geb_spec (timestamp t) (now - hours_24)); [discriminate|lia].
    + intros Hold.
      destruct (filter inside history) as [|a l] eqn:E; [reflexivity|].
      assert (Hf : In a (filter inside history)) by (rewrite E; left; reflexivity).
      apply filter_In in Hf. destruct Hf as [Hin Ha].
      specialize (Hold a Hin). unfold inside in Ha.
      destruct (Z.geb_spec (timestamp a) (now - hours_24)); [lia|discriminate].
  - intros signals wins losses net_pct Hrep.
    destruct (filter inside history) as [|a l] eqn:E; [discriminate|].
    cbn [py_empty] in Hrep. injection Hrep as <- <- <- _.
    pose proof (outcome_counts (a :: l)) as Hc.
    pose proof (filter_length_le inside history) as Hle. rewrite E in Hle.
    unfold py_len. cbn [length filter] in *. lia.
Qed.

Lemma check_trades_returns (market : nat -> Exchange) (telegram : nat -> bool)
  (s : Sys) :
  fst (check_trades market telegram s) = Return tt.
Proof.
  unfold check_trades, bind, get, modify, save_history, ret.
  destruct (check_loop _ _ _ _ _ _) as [[tr u] s2].
  destruct u; reflexivity.
Qed.

(** X18. [daily_report] changes the ledger, the file and the counters
    exactly as the monitoring pass it starts with, whether or not the
    report is delivered and whatever the instant; a report that cannot
    be delivered leaves the state of that pass and nothing else. *)
Theorem daily_report_effects (market : nat -> Exchange) (telegram : nat -> bool)
  (now : Z) (s : Sys) :
  let checked := exec (check_trades market telegram) s in
  exec (daily_report market telegram false now) s = checked /\
  forall report_ok,
    let s' := exec (daily_report market telegram report_ok now) s in
    trade_history s' = trade_history checked /\
    writes s' = writes checked /\
    bot_stats s' = bot_stats checked.
Proof.
  cbn zeta.
  assert (Hrun : forall ok,
             exec (daily_report market telegram ok now) s
             = exec (bot_send_message ok
                       (ReportMsg (report_of now
                          (trade_history (exec (check_trades market telegram) s)))))
                    (exec (check_trades market telegram) s)).
  { intros ok. pose proof (check_trades_returns market telegram s) as Hr.
    unfold daily_report, try_except, bind, get, exec. cbn beta.
    destruct (check_trades market telegram s) as [r s1].
    cbn [fst snd] in *. subst r. reflexivity. }
  split.
  - rewrite Hrun. reflexivity.
  - intros ok. rewrite Hrun. destruct ok; cbn; auto.
Qed.

End Pandas.

(** * The statements on sample inputs

    Each statement above that has a premise is run here on a sample
    ledger or frame, with [exact_mean] for the averages of pandas. *)

Lemma calculate_cpr_levels_spec_witness :
  calculate_cpr_levels [mkCandle 0 9 12 8 10 1] = None /\
  exists prev_day lv,
    nth_error [mkCandle 0 9 12 8 10 1; mkCandle 1 10 13 9 11 1]
              (2 - 2) = Some prev_day /\
    calculate_cpr_levels [mkCandle 0 9 12 8 10 1; mkCandle 1 10 13 9 11 1]
      = Some lv /\
    PP lv == 10.
Proof.
  split.
  - apply (proj1 calculate_cpr_levels_spec). cbn. lia.
  - destruct (proj2 calculate_cpr_levels_spec
                [mkCandle 0 9 12 8 10 1; mkCandle 1 10 13 9 11 1])
      as (prev & lv & Hn & Hc & Hpp & _).
    + cbn. lia.
    + exists prev, lv. split; [exact Hn|]. split; [exact Hc|].
      cbn in Hn. injection Hn as <-. rewrite Hpp. reflexivity.
Defined.

Lemma check_trades_frame_witness :
  exists t',
    nth_error
      (trade_history
         (exec (check_trades exact_mean (fun _ => flat_market 121) (fun _ => true))
               (sys_of [buy_trade; closed_trade]))) 1
    = Some t' /\ t' = closed_trade.
Proof.
  destruct (proj2 (check_trades_frame exact_mean (fun _ => flat_market 121)
                     (fun _ => true) (sys_of [buy_trade; closed_trade]))
                  1%nat closed_trade eq_refl)
    as (t' & Hn & _ & _ & _ & _ & _ & _ & _ & _ & Hfix & _).
  exists t'. split; [exact Hn|]. apply Hfix. discriminate.
Defined.

Lemma check_trades_priority_witness :
  exists t',
    nth_error
      (trade_history
         (exec (check_trades exact_mean (fun _ => flat_market 121) (fun _ => true))
               (sys_of [buy_trade; sell_trade]))) 0
    = Some t' /\
    status t' = "TP2_HIT"%string /\ outcome t' = Some "WIN"%string.
Proof.
  destruct (check_trades_priority exact_mean (fun _ => flat_market 121) (fun _ => true)
              (sys_of [buy_trade; sell_trade]) 0%nat buy_trade (flat_bar 121)
              eq_refl eq_refl eq_refl)
    as (t' & Hn & Hbuy & _).
  exists t'. split; [exact Hn|].
  apply (proj1 (Hbuy eq_refl)). vm_compute. discriminate.
Defined.

Lemma check_trades_pnl_witness :
  exists t',
    nth_error
      (trade_history
         (exec (check_trades exact_mean (fun _ => flat_market 121) (fun _ => true))
               (sys_of [buy_trade; sell_trade]))) 0
    = Some t' /\
    pnl_percent t' = (121 - 100) / 100 * 100 /\ 0 < pnl_percent t'.
Proof.
  assert (Hentry : ~ entry buy_trade == 0) by (vm_compute; discriminate).
  destruct (check_trades_pnl exact_mean (fun _ => flat_market 121) (fun _ => true)
              (sys_of [buy_trade; sell_trade]) 0%nat buy_trade (flat_bar 121)
              eq_refl eq_refl eq_refl Hentry)
    as (t' & Hn & Hres).
  exists t'. split; [exact Hn|].
  assert (Hst : status t' <> "ACTIVE"%string).
  { vm_compute in Hn. injection Hn as <-. discriminate. }
  destruct (Hres Hst) as (Hbuy & _ & Hpos & _).
  split.
  - apply Hbuy. reflexivity.
  - apply Hpos; [reflexivity | reflexivity | reflexivity].
Defined.

Lemma daily_report_window_witness :
  exists net : Q,
    report_of 5
      (trade_history
         (exec (check_trades exact_mean (fun _ => flat_market 106) (fun _ => true))
               (sys_of [buy_trade; sell_trade])))
    = Summary 2 0 1 net /\ net == -6.
Proof.
  pose proof (daily_report_window exact_mean (fun _ => flat_market 106) (fun _ => true)
                5 (sys_of [buy_trade; sell_trade])) as H.
  cbn zeta in H.
  destruct H as (_ & _ & _ & _ & _ & Hsum & _).
  eexists. split.
  - rewrite Hsum; [reflexivity|]. vm_compute. discriminate.
  - vm_compute. reflexivity.
Defined.

Lemma home_win_rate_witness :
  exists wr : Q,
    home (sys_of [buy_trade; closed_trade])
    = Some (2%Z, 1%Z, 0%Z, wr) /\ wr = inject_Z 1 / inject_Z (1 + 0) * 100.
Proof.
  destruct (home_win_rate (sys_of [buy_trade; closed_trade]))
    as (wr & Hhome & _ & _ & Hpos).
  exists wr. split; [exact Hhome|].
  apply Hpos. reflexivity.
Defined.

Lemma generate_signal_decision_witness :
  master_signal "BULLISH" "BULLISH" 105 100 = "STRONG BUY"%string /\
  exec (generate_and_send_signal exact_mean quiet_market true 7 "BTC/USDT") (sys_of [])
  = sys_of [].
Proof.
  split.
  - apply (proj1 (proj1 (generate_signal_decision exact_mean) "BULLISH"%string
                    "BULLISH"%string 105 100)).
    repeat split; reflexivity.
  - apply (proj2 (generate_signal_decision exact_mean) quiet_market true 7%Z
             "BTC/USDT"%string (sys_of []) daily_series daily_levels
             (flat_bar 105) (flat_bar 105)); reflexivity.
Defined.

Lemma generate_signal_levels_witness :
  exists t,
    trade_history
      (exec (generate_and_send_signal exact_mean rising_market true 7 "BTC/USDT")
            (sys_of []))
    = [t] /\
    status t = "ACTIVE"%string /\ entry t = 105 /\
    tp1 t == 110 /\ tp2 t == 120 /\ sl t == 100.
Proof.
  destruct (generate_signal_levels exact_mean rising_market true 7%Z "BTC/USDT"%string
              (sys_of []) daily_series daily_levels rising_bar rising_bar
              eq_refl eq_refl eq_refl eq_refl)
    as [Hbuy _].
  destruct (Hbuy eq_refl)
    as (t & Hh & _ & _ & Htp1 & Htp2 & Hsl & _ & Hst & Hen & _).
  exists t. split; [exact Hh|].
  split; [exact Hst|]. split; [exact Hen|].
  rewrite Htp1, Htp2, Hsl. repeat split; reflexivity.
Defined.

Lemma trend_classification_witness :
  exists row,
    py_iloc (with_indicators exact_mean rising_series) (-1) = Some row /\
    b_sma9 row = exact_mean 9%nat (map c_close rising_series) 19%nat /\
    trend_of row = "BULLISH"%string /\
    trend_of (flat_bar 105) = "BEARISH"%string.
Proof.
  destruct (proj2 (trend_classification exact_mean) rising_series)
    as (latest & row & _ & Hrow & _ & H9 & H20).
  - cbn. lia.
  - exists row. split; [exact Hrow|].
    split; [exact H9|].
    split.
    + apply (proj1 (proj1 (trend_classification exact_mean) row)).
      rewrite H9, H20. reflexivity.
    + apply (proj2 (proj2 (proj1 (trend_classification exact_mean) (flat_bar 105)))).
      reflexivity.
Defined.

Lemma cpr_band_contains_pp_witness :
  py_min (BC daily_levels) (TC daily_levels) <= PP daily_levels /\
  PP daily_levels <= py_max (BC daily_levels) (TC daily_levels).
Proof.
  apply (cpr_band_contains_pp daily_series daily_levels). reflexivity.
Defined.

Lemma with_indicators_frame_witness :
  (with_indicators exact_mean) (firstn 19 rising_series) = [] /\
  length (with_indicators exact_mean rising_series) = 1%nat /\
  exists row,
    nth_error (with_indicators exact_mean rising_series) 0 = Some row /\
    nth_error rising_series 19 = Some (b_candle row).
Proof.
  split; [|split].
  - apply (proj1 (proj2 (proj2 (with_indicators_frame exact_mean (firstn 19 rising_series))))).
    cbn. lia.
  - apply (proj1 (proj2 (with_indicators_frame exact_mean rising_series))).
  - exists rising_bar. split; [reflexivity|].
    apply (proj2 (proj2 (proj2 (with_indicators_frame exact_mean rising_series)))
                 0%nat rising_bar eq_refl).
Defined.

Lemma fetch_data_safe_retries_witness :
  (fetch_data_safe exact_mean) down_market "BTC/USDT" "1h" = [] /\
  (fetch_data_safe exact_mean) (flaky_market 105) "BTC/USDT" "1h"
  = (with_indicators exact_mean) (flat_series 105).
Proof.
  split.
  - apply (proj1 (fetch_data_safe_retries exact_mean down_market "BTC/USDT" "1h")).
    intros k _. reflexivity.
  - apply (proj2 (fetch_data_safe_retries exact_mean (flaky_market 105) "BTC/USDT" "1h")
             2%nat (flat_series 105)).
    + lia.
    + intros j Hj. destruct j as [|[|j]]; [reflexivity | reflexivity | lia].
    + reflexivity.
Defined.

Lemma generate_needs_inputs_witness :
  exec (generate_and_send_signal exact_mean down_market true 7 "BTC/USDT")
       (sys_of [buy_trade])
  = sys_of [buy_trade].
Proof.
  apply (generate_needs_inputs exact_mean). left. reflexivity.
Defined.

Lemma generate_stop_side_witness :
  exists t,
    trade_history
      (exec (generate_and_send_signal exact_mean rising_market true 7 "BTC/USDT")
            (sys_of []))
    = [t] /\ sl t < entry t.
Proof.
  eexists. split; [vm_compute; reflexivity|].
  destruct (generate_stop_side exact_mean rising_market true 7%Z "BTC/USDT"%string
              (sys_of [])
              (mkTrade 1 "BTC/USDT" "STRONG BUY" 105 (330 # 3) (360 # 3)
                       (200 # 2) 7 "ACTIVE" None 0) eq_refl)
    as [[[_ H]|[H _]] _]; [exact H | discriminate].
Defined.

Lemma sequential_ids_kept_witness :
  sequential_ids
    (trade_history
       (exec (check_trades exact_mean (fun _ => flat_market 121) (fun _ => true))
             (exec (generate_and_send_signal exact_mean rising_market true 7 "BTC/USDT")
                   (sys_of [buy_trade; sell_trade])))).
Proof.
  assert (H0 : sequential_ids (trade_history (sys_of [buy_trade; sell_trade]))).
  { intros [|[|[|i]]] t Hi; cbn in Hi; try discriminate;
      injection Hi as <-; reflexivity. }
  apply (sequential_ids_kept exact_mean _
           (proj1 (sequential_ids_kept exact_mean _ H0) rising_market true 7%Z
                  "BTC/USDT"%string)).
Defined.

Lemma coherent_kept_witness :
  exists t',
    nth_error
      (trade_history
         (exec (check_trades exact_mean (fun _ => flat_market 121) (fun _ => false))
               (sys_of [buy_trade; sell_trade; closed_trade]))) 0
    = Some t' /\ status t' = "TP2_HIT"%string /\ coherent t'.
Proof.
  assert (H0 : forall t, In t (trade_history
                                 (sys_of [buy_trade; sell_trade; closed_trade])) ->
                         coherent t).
  { intros t [<-|[<-|[<-|[]]]]; unfold coherent; cbn; auto 6. }
  eexists. split; [vm_compute; reflexivity|]. split; [reflexivity|].
  apply (proj1 (proj2 (coherent_kept exact_mean _ H0))
               (fun _ => flat_market 121) (fun _ => false)).
  vm_compute. left. reflexivity.
Defined.

Lemma run_passes_final_witness :
  nth_error
    (trade_history
       (run_passes exact_mean [(fun _ => flat_market 121, fun _ => true);
                    (fun _ => flat_market 50, fun _ => true)]
                   (sys_of [buy_trade; closed_trade]))) 1
  = Some closed_trade.
Proof.
  apply (proj1 (proj2 (run_passes_final exact_mean _ (sys_of [buy_trade; closed_trade])
                         1%nat))).
  - reflexivity.
  - discriminate.
Defined.

Lemma check_trades_outage_witness :
  exec (check_trades exact_mean (fun _ => down_market) (fun _ => true))
       (sys_of [buy_trade; sell_trade])
  = sys_of [buy_trade; sell_trade].
Proof.
  apply (check_trades_outage exact_mean). intros i t _ _. reflexivity.
Defined.

Lemma check_trades_messages_witness :
  sent (exec (check_trades exact_mean (fun _ => flat_market 121) (fun _ => true))
             (sys_of [buy_trade; closed_trade]))
  = [UpdateMsg "BTC/USDT" "TP2_HIT" (Some "WIN"%string)].
Proof.
  destruct (check_trades_messages exact_mean (fun _ => flat_market 121) (fun _ => true)
              (sys_of [buy_trade; closed_trade]))
    as (msgs & Hs & _ & _).
  rewrite Hs. vm_compute in Hs. subst msgs. reflexivity.
Defined.

Lemma outcome_matches_pnl_witness :
  exists t',
    nth_error
      (trade_history
         (exec (check_trades exact_mean (fun _ => flat_market 106) (fun _ => true))
               (sys_of [buy_trade; sell_trade]))) 1
    = Some t' /\
    outcome t' = Some "LOSS"%string /\ pnl_percent t' < 0.
Proof.
  assert (Hbuy : py_contains "BUY" (signal sell_trade) = true ->
                 sl sell_trade < entry sell_trade /\
                 entry sell_trade < tp1 sell_trade /\
                 entry sell_trade < tp2 sell_trade) by discriminate.
  assert (Hsell : py_contains "BUY" (signal sell_trade) = false ->
                  entry sell_trade < sl sell_trade /\
                  tp1 sell_trade < entry sell_trade /\
                  tp2 sell_trade < entry sell_trade)
    by (intros _; repeat split; reflexivity).
  destruct (outcome_matches_pnl exact_mean (fun _ => flat_market 106) (fun _ => true)
              (sys_of [buy_trade; sell_trade]) 1%nat sell_trade (flat_bar 106)
              eq_refl eq_refl eq_refl eq_refl eq_refl Hbuy Hsell)
    as (t' & Hn & _ & Hloss).
  exists t'. split; [exact Hn|].
  assert (Ho : outcome t' = Some "LOSS"%string).
  { vm_compute in Hn. injection Hn as <-. reflexivity. }
  split; [exact Ho | apply Hloss, Ho].
Defined.

Lemma home_bounds_witness :
  exists wr : Q,
    home (sys_of [buy_trade; closed_trade]) = Some (2%Z, 1%Z, 0%Z, wr) /\
    wr == 100.
Proof.
  destruct (home_bounds (sys_of [buy_trade; closed_trade]))
    as (total & wins & losses & wr & Hhome & _ & _ & _ & _ & _ & _ & Hfull).
  exists wr.
  assert (E : Some (total, wins, losses, wr)
              = Some (2%Z, 1%Z, 0%Z, inject_Z 1 / inject_Z (1 + 0) * 100))
    by (rewrite <- Hhome; reflexivity).
  injection E as Ht Hw Hl Hwr.
  split; [rewrite Hhome; congruence|].
  apply Hfull; lia.
Defined.

Lemma report_of_bounds_witness :
  report_of 5 [buy_trade; closed_trade] = Summary 2 1 0 (py_sum [0; 12]) /\
  (1 <= 2 <= py_len [buy_trade; closed_trade])%Z /\ (1 + 0 <= 2)%Z.
Proof.
  split; [reflexivity|].
  destruct (proj2 (proj2 (report_of_bounds 5 [buy_trade; closed_trade]))
              2%Z 1%Z 0%Z (py_sum [0; 12]) eq_refl)
    as (H1 & _ & _ & H2).
  split; [exact H1 | exact H2].
Defined.
